(** * Nest-Auth-Standard: authentication, authorization and task queries

    A shallow embedding of the service layer of the task-management API
    (AuthService with JwtStrategy, UsersService, TasksService), of its
    guards (JwtAuthGuard, RolesGuard), of HttpCacheInterceptor and of the
    task and user routes that run behind them, together with the
    properties stated for it.

    Conventions of the embedding.
    - An [async] method that may [throw] is a computation in the monad
      [M A := State -> Outcome A * State]: the state holds the two
      database tables and the cache-manager store, an [Outcome] is either
      a returned value or the thrown Nest exception.
    - A TypeORM repository is the list of its rows, in table order;
      [findOne({ where })] returns the first row that matches.
    - The cache manager is a finite map from keys to stored values.  Time
      to live is enforced by the store and is not modelled: an entry stays
      until [reset] removes it.
    - [null] and [undefined] of an object-typed value are [None].
    - JavaScript numbers that the DTO validation restricts to integers
      ([page], [limit]) and row counts are [Z]. *)

From Stdlib Require Import ZArith Ascii String List Permutation Sorted Lia Bool.
From stdpp Require Import base option list gmap strings.

Local Open Scope string_scope.
Local Open Scope Z_scope.

(** ** Exceptions and the service monad *)

(** The exceptions raised by the modelled code, with their message: the
    four Nest HTTP exceptions, and the driver error with which the
    database rejects a row that breaks a constraint of the schema. *)
Inductive Exception : Type :=
  | NotFoundException (message : string)
  | ForbiddenException (message : string)
  | UnauthorizedException (message : string)
  | ConflictException (message : string)
  | QueryFailedError (message : string).

(** The status the exception filters answer with: an HTTP exception's own
    status, 500 for anything else. *)
Definition getStatus (e : Exception) : Z :=
  match e with
  | NotFoundException _ => 404
  | ForbiddenException _ => 403
  | UnauthorizedException _ => 401
  | ConflictException _ => 409
  | QueryFailedError _ => 500
  end.

Definition getMessage (e : Exception) : string :=
  match e with
  | NotFoundException m | ForbiddenException m
  | UnauthorizedException m | ConflictException m
  | QueryFailedError m => m
  end.

Inductive Outcome (A : Type) : Type :=
  | Return (a : A)
  | Throw (e : Exception).
Arguments Return {A} a.
Arguments Throw {A} e.

Definition isUnauthorized {A} (o : Outcome A) : bool :=
  match o with
  | Throw (UnauthorizedException _) => true
  | _ => false
  end.

Definition isForbidden {A} (o : Outcome A) : bool :=
  match o with
  | Throw (ForbiddenException _) => true
  | _ => false
  end.

(** ** Entities *)

(** user.entity.ts: [enum UserRole]. *)
Inductive UserRole : Type := ADMIN | USER.

Global Instance UserRole_eq_dec : EqDecision UserRole.
Proof. solve_decision. Defined.

(** user.entity.ts: [class User].  The [tasks] relation is reached through
    the task table and the two timestamps play no part in the modelled
    methods. *)
Record User : Type := mkUser {
  user_id : string;
  user_email : string;
  user_password : string;
  user_firstName : string;
  user_lastName : string;
  user_role : UserRole;
  user_isActive : bool
}.

(** task.entity.ts: [enum TaskStatus], [enum TaskPriority]. *)
Inductive TaskStatus : Type := TODO | IN_PROGRESS | DONE.
Inductive TaskPriority : Type := LOW | MEDIUM | HIGH.

Global Instance TaskStatus_eq_dec : EqDecision TaskStatus.
Proof. solve_decision. Defined.
Global Instance TaskPriority_eq_dec : EqDecision TaskPriority.
Proof. solve_decision. Defined.

(** task.entity.ts: [class Task].  Dates are timestamps in [Z];
    [description] and [dueDate] are nullable columns. *)
Record Task : Type := mkTask {
  task_id : string;
  task_title : string;
  task_description : option string;
  task_status : TaskStatus;
  task_priority : TaskPriority;
  task_dueDate : option Z;
  task_userId : string;
  task_createdAt : Z;
  task_updatedAt : Z
}.

Global Instance Task_eq_dec : EqDecision Task.
Proof. solve_decision. Defined.

(** ** Data transfer objects *)

(** register.dto.ts *)
Record RegisterDto : Type := mkRegisterDto {
  reg_email : string;
  reg_password : string;
  reg_firstName : string;
  reg_lastName : string
}.

(** login.dto.ts *)
Record LoginDto : Type := mkLoginDto {
  login_email : string;
  login_password : string
}.

(** jwt.strategy.ts: [interface JwtPayload]; [iat] and [exp] are added by
    the signer. *)
Record JwtPayload : Type := mkJwtPayload {
  sub : string;
  jwt_email : string
}.

(** create-task.dto.ts *)
Record CreateTaskDto : Type := mkCreateTaskDto {
  ct_title : string;
  ct_description : option string;
  ct_status : option TaskStatus;
  ct_priority : option TaskPriority;
  ct_dueDate : option Z
}.

(** update-task.dto.ts: [PartialType(CreateTaskDto)], every field optional. *)
Record UpdateTaskDto : Type := mkUpdateTaskDto {
  ut_title : option string;
  ut_description : option string;
  ut_status : option TaskStatus;
  ut_priority : option TaskPriority;
  ut_dueDate : option Z
}.

(** update-user.dto.ts: every field optional. *)
Record UpdateUserDto : Type := mkUpdateUserDto {
  uu_firstName : option string;
  uu_lastName : option string;
  uu_role : option UserRole;
  uu_isActive : option bool
}.

(** filter-task.dto.ts: the [sortBy] and [sortOrder] enumerations. *)
Inductive SortField : Type := SortCreatedAt | SortUpdatedAt | SortDueDate | SortPriority.
Inductive SortOrder : Type := ASC | DESC.

(** filter-task.dto.ts: [class FilterTaskDto].  The four fields with an
    initialiser are always defined once the validation pipe has built the
    instance. *)
Record FilterTaskDto : Type := mkFilterTaskDto {
  f_status : option TaskStatus;
  f_priority : option TaskPriority;
  f_search : option string;
  f_page : Z;
  f_limit : Z;
  f_sortBy : SortField;
  f_sortOrder : SortOrder
}.

(** ** Responses and the shared state *)

(** The [meta] object of a task listing. *)
Record PageMeta : Type := mkPageMeta {
  total : Z;
  page : Z;
  limit : Z;
  totalPages : Z;
  hasNextPage : bool;
  hasPreviousPage : bool
}.

(** The object returned by [TasksService.findAll]. *)
Record TaskPage : Type := mkTaskPage {
  data : list Task;
  meta : PageMeta
}.

(** What a task route hands back, and therefore what the cache manager
    stores.  Every case is a JavaScript object, hence truthy: the tests
    [if (cachedResult)] and [if (cachedResponse)] succeed exactly when the
    key is present. *)
Inductive Response : Type :=
  | RPage (p : TaskPage)
  | RTask (t : Task).

(** The database tables, the cache-manager store shared by the service and
    the interceptor, the counter behind generated primary keys and the
    database clock. *)
Record State : Type := mkState {
  users : list User;
  tasks : list Task;
  cache : gmap string Response;
  nextId : nat;
  now : Z
}.

Definition M (A : Type) : Type := State -> Outcome A * State.

Definition ret {A} (a : A) : M A := fun s => (Return a, s).

Definition throw {A} (e : Exception) : M A := fun s => (Throw e, s).

Definition bind {A B} (m : M A) (k : A -> M B) : M B :=
  fun s =>
    match m s with
    | (Return a, s') => k a s'
    | (Throw e, s') => (Throw e, s')
    end.

Definition gets {A} (f : State -> A) : M A := fun s => (Return (f s), s).

Definition modify (f : State -> State) : M unit := fun s => (Return tt, f s).

Declare Scope svc_scope.
Delimit Scope svc_scope with svc.
Notation "x <- m ;; k" := (bind m (fun x => k))
  (at level 100, m at next level, right associativity) : svc_scope.
Notation "m ;;; k" := (bind m (fun _ => k))
  (at level 100, right associativity) : svc_scope.
Local Open Scope svc_scope.

(** ** External collaborators

    Password hashing, token signing, key generation and [JSON.stringify]
    are library calls; the services are written against this interface. *)
Class Externals : Type := {
  bcrypt_hash : string -> string;
  bcrypt_compare : string -> string -> bool;
  jwt_sign : JwtPayload -> string;
  uuid : nat -> string;
  JSON_stringify : FilterTaskDto -> string
}.

(** ** users.service.ts *)
Module UsersService.
Section WithExternals.
Context `{Externals}.

(** [userRepository.create(dto)] followed by [save]: the database fills in
    the generated key and the column defaults [role = USER] and
    [isActive = true], and its unique index on [email] rejects a second
    row with a stored email. *)
Definition create (registerDto : RegisterDto) : M User :=
  fun s =>
    if existsb (fun u => String.eqb (user_email u) (reg_email registerDto)) (users s)
    then (Throw (QueryFailedError "duplicate key value violates unique constraint"), s)
    else
      let user := {| user_id := uuid (nextId s);
                     user_email := reg_email registerDto;
                     user_password := reg_password registerDto;
                     user_firstName := reg_firstName registerDto;
                     user_lastName := reg_lastName registerDto;
                     user_role := USER;
                     user_isActive := true |} in
      (Return user,
       {| users := users s ++ [user]; tasks := tasks s; cache := cache s;
          nextId := S (nextId s); now := now s |}).

(** [findOne(id)]: throws when no row has the id. *)
Definition findOne (id : string) : M User :=
  user <- gets (fun s => List.find (fun u => String.eqb (user_id u) id) (users s)) ;;
  match user with
  | None => throw (NotFoundException ("User with ID " +:+ id +:+ " not found"))
  | Some user => ret user
  end.

(** [findByEmail(email)]: the row or [null]. *)
Definition findByEmail (email : string) : M (option User) :=
  gets (fun s => List.find (fun u => String.eqb (user_email u) email) (users s)).

Definition roleIsAdmin (r : UserRole) : bool :=
  match r with ADMIN => true | USER => false end.

(** [userRepository.delete(id)]: removes the rows with that key; the
    [onDelete: 'CASCADE'] of the task relation removes their tasks. *)
Definition hardDelete (id : string) (currentUser : User) : M unit :=
  if negb (roleIsAdmin (user_role currentUser))
  then throw (ForbiddenException "Only admins can permanently delete users")
  else
    affected <- gets (fun s =>
      length (List.filter (fun u => String.eqb (user_id u) id) (users s))) ;;
    modify (fun s =>
      {| users := List.filter (fun u => negb (String.eqb (user_id u) id)) (users s);
         tasks := List.filter (fun t => negb (String.eqb (task_userId t) id)) (tasks s);
         cache := cache s; nextId := nextId s; now := now s |}) ;;;
    if Nat.eqb affected 0
    then throw (NotFoundException ("User with ID " +:+ id +:+ " not found"))
    else ret tt.

(** [Object.assign(user, updateUserDto)]: the provided fields overwrite. *)
Definition assign (user : User) (updateUserDto : UpdateUserDto) : User :=
  {| user_id := user_id user;
     user_email := user_email user;
     user_password := user_password user;
     user_firstName := default (user_firstName user) (uu_firstName updateUserDto);
     user_lastName := default (user_lastName user) (uu_lastName updateUserDto);
     user_role := default (user_role user) (uu_role updateUserDto);
     user_isActive := default (user_isActive user) (uu_isActive updateUserDto) |}.

(** [user.isActive = false] *)
Definition deactivate (user : User) : User :=
  {| user_id := user_id user;
     user_email := user_email user;
     user_password := user_password user;
     user_firstName := user_firstName user;
     user_lastName := user_lastName user;
     user_role := user_role user;
     user_isActive := false |}.

(** [userRepository.save] of a row that carries a key: the stored row
    with that key is rewritten; when there is none the row is inserted,
    under the unique index on [email]. *)
Definition saveUser (user : User) : M User :=
  fun s =>
    match List.find (fun u => String.eqb (user_id u) (user_id user)) (users s) with
    | Some _ =>
        (Return user,
         {| users := List.map (fun u => if String.eqb (user_id u) (user_id user)
                                        then user else u) (users s);
            tasks := tasks s; cache := cache s; nextId := nextId s; now := now s |})
    | None =>
        if existsb (fun u => String.eqb (user_email u) (user_email user)) (users s)
        then (Throw (QueryFailedError "duplicate key value violates unique constraint"), s)
        else
          (Return user,
           {| users := users s ++ [user]; tasks := tasks s; cache := cache s;
              nextId := nextId s; now := now s |})
    end.

(** [update(id, updateUserDto, currentUser)].  A role in the DTO is one of
    the two enumeration strings, hence truthy whenever it is present. *)
Definition update (id : string) (updateUserDto : UpdateUserDto) (currentUser : User)
  : M User :=
  user <- findOne id ;;
  if negb (String.eqb (user_id currentUser) id)
     && negb (roleIsAdmin (user_role currentUser))
  then throw (ForbiddenException "You can only update your own profile")
  else if bool_decide (is_Some (uu_role updateUserDto))
          && negb (roleIsAdmin (user_role currentUser))
  then throw (ForbiddenException "Only admins can change user roles")
  else saveUser (assign user updateUserDto).

(** [remove(id, currentUser)]: the soft delete. *)
Definition remove (id : string) (currentUser : User) : M unit :=
  user <- findOne id ;;
  if negb (roleIsAdmin (user_role currentUser))
  then throw (ForbiddenException "Only admins can delete users")
  else
    saveUser (deactivate user) ;;;
    ret tt.

End WithExternals.
End UsersService.

(** ** auth.service.ts *)
Module AuthService.
Section WithExternals.
Context `{Externals}.

(** The user view returned by [register] and [login]: the five listed
    fields of the entity. *)
Record UserView : Type := mkUserView {
  view_id : string;
  view_email : string;
  view_firstName : string;
  view_lastName : string;
  view_role : UserRole
}.

Record AuthResult : Type := mkAuthResult {
  user : UserView;
  access_token : string
}.

Definition generateToken (userId email : string) : string :=
  jwt_sign {| sub := userId; jwt_email := email |}.

Definition authResult (u : User) : AuthResult :=
  {| user := {| view_id := user_id u;
                view_email := user_email u;
                view_firstName := user_firstName u;
                view_lastName := user_lastName u;
                view_role := user_role u |};
     access_token := generateToken (user_id u) (user_email u) |}.


Definition login (loginDto : LoginDto) : M AuthResult :=
  user <- UsersService.findByEmail (login_email loginDto) ;;
  match user with
  | None => throw (UnauthorizedException "Invalid credentials")
  | Some user =>
      if negb (user_isActive user)
      then throw (UnauthorizedException "Account is deactivated")
      else
        let isPasswordValid :=
          bcrypt_compare (login_password loginDto) (user_password user) in
        if negb isPasswordValid
        then throw (UnauthorizedException "Invalid credentials")
        else ret (authResult user)
  end.

(** [validateUser(payload)].  [UsersService.findOne] hands back a row or
    throws, so the [!user] half of the source's test never holds; what is
    left of the test is [!user.isActive]. *)
Definition validateUser (payload : JwtPayload) : M (option User) :=
  user <- UsersService.findOne (sub payload) ;;
  if negb (user_isActive user)
  then ret None
  else ret (Some user).

End WithExternals.
End AuthService.

(** jwt.strategy.ts: [JwtStrategy.validate], the caller of [validateUser]. *)
Module JwtStrategy.
Section WithExternals.
Context `{Externals}.

Definition validate (payload : JwtPayload) : M User :=
  user <- AuthService.validateUser payload ;;
  match user with
  | None => throw (UnauthorizedException "User not found or inactive")
  | Some user => ret user
  end.

End WithExternals.
End JwtStrategy.

(** ** The SQL fragments emitted by the query builder

    The part of PostgreSQL that [TasksService.findAll] relies on: [ILIKE]
    with its pattern language, the three-valued [OR] of a [WHERE] clause,
    [ORDER BY] over the four sortable columns, [OFFSET] / [LIMIT]. *)
Module Sql.

(** Case folding of [ILIKE], on the letters A to Z.  How the database
    folds a letter outside ASCII depends on its locale and is not
    modelled. *)
Definition lower_ascii (c : ascii) : ascii :=
  let n := nat_of_ascii c in
  if (Nat.leb 65 n && Nat.leb n 90)%bool then ascii_of_nat (n + 32) else c.

Definition lower (s : list ascii) : list ascii := List.map lower_ascii s.

(** The escape character of a [LIKE] pattern, code 92. *)
Definition backslash : ascii := ascii_of_nat 92.

(** [s LIKE p]: [%] stands for any run of characters, [_] for any single
    character, a backslash makes the next pattern character literal, and
    a pattern that ends in a lone backslash matches nothing. *)
Fixpoint like (p s : list ascii) {struct p} : bool :=
  match p with
  | [] => match s with [] => true | _ :: _ => false end
  | c :: p' =>
      if Ascii.eqb c "%" then
        (fix any (s : list ascii) : bool :=
           (like p' s ||
            match s with
            | [] => false
            | _ :: s' => any s'
            end)%bool) s
      else if Ascii.eqb c "_" then
        match s with
        | [] => false
        | _ :: s' => like p' s'
        end
      else if Ascii.eqb c backslash then
        match p' with
        | [] => false
        | e :: p'' =>
            match s with
            | [] => false
            | d :: s' => (Ascii.eqb e d && like p'' s')%bool
            end
        end
      else
        match s with
        | [] => false
        | d :: s' => (Ascii.eqb c d && like p' s')%bool
        end
  end.

(** [column ILIKE pattern]; [NULL] when the column is [NULL]. *)
Definition ilike (column : option string) (pattern : string) : option bool :=
  match column with
  | None => None
  | Some v =>
      Some (like (lower (list_ascii_of_string pattern))
                 (lower (list_ascii_of_string v)))
  end.

(** Three-valued [OR]. *)
Definition or3 (a b : option bool) : option bool :=
  match a, b with
  | Some true, _ | _, Some true => Some true
  | Some false, Some false => Some false
  | _, _ => None
  end.

(** A row passes a [WHERE] condition when the condition is true, not when
    it is false or [NULL]. *)
Definition holds (c : option bool) : bool :=
  match c with Some true => true | _ => false end.

Definition priorityRank (p : TaskPriority) : Z :=
  match p with LOW => 0 | MEDIUM => 1 | HIGH => 2 end.

(** Ascending order of a nullable column: [NULL] sorts after every value. *)
Definition nullsLastLeb (a b : option Z) : bool :=
  match a, b with
  | _, None => true
  | None, Some _ => false
  | Some x, Some y => Z.leb x y
  end.

Definition columnLeb (sortBy : SortField) (a b : Task) : bool :=
  match sortBy with
  | SortCreatedAt => Z.leb (task_createdAt a) (task_createdAt b)
  | SortUpdatedAt => Z.leb (task_updatedAt a) (task_updatedAt b)
  | SortDueDate => nullsLastLeb (task_dueDate a) (task_dueDate b)
  | SortPriority => Z.leb (priorityRank (task_priority a)) (priorityRank (task_priority b))
  end.

Definition rowLeb (sortBy : SortField) (sortOrder : SortOrder) (a b : Task) : bool :=
  match sortOrder with
  | ASC => columnLeb sortBy a b
  | DESC => columnLeb sortBy b a
  end.

Fixpoint insertRow (leb : Task -> Task -> bool) (x : Task) (rows : list Task) : list Task :=
  match rows with
  | [] => [x]
  | y :: rows' => if leb x y then x :: rows else y :: insertRow leb x rows'
  end.

(** [ORDER BY task.<sortBy> <sortOrder>].  Rows that tie on the column are
    left in table order, one of the orders the database may produce. *)
Definition orderBy (sortBy : SortField) (sortOrder : SortOrder) (rows : list Task) : list Task :=
  List.fold_right (insertRow (rowLeb sortBy sortOrder)) [] rows.

(** [OFFSET skip LIMIT take]. *)
Definition skipTake (skip take : Z) (rows : list Task) : list Task :=
  List.firstn (Z.to_nat take) (List.skipn (Z.to_nat skip) rows).

End Sql.

(** ** The cache manager *)
Module CacheManager.

Definition get (key : string) : M (option Response) :=
  gets (fun s => cache s !! key).

Definition set (key : string) (value : Response) : M unit :=
  modify (fun s =>
    {| users := users s; tasks := tasks s; cache := <[key := value]> (cache s);
       nextId := nextId s; now := now s |}).

Definition reset : M unit :=
  modify (fun s =>
    {| users := users s; tasks := tasks s; cache := ∅;
       nextId := nextId s; now := now s |}).

End CacheManager.

(** ** tasks.service.ts *)
Module TasksService.
Section WithExternals.
Context `{Externals}.

(** [invalidateTasksCache(userId)]: the argument is not used, the whole
    store is reset. *)
Definition invalidateTasksCache (userId : string) : M unit :=
  CacheManager.reset.

(** [taskRepository.save] of a new row: the database generates the key,
    fills in the column defaults and both timestamps, and its foreign key
    on [userId] rejects an owner that is not in the user table. *)
Definition insertTask (createTaskDto : CreateTaskDto) (userId : string) : M Task :=
  fun s =>
    if negb (existsb (fun u => String.eqb (user_id u) userId) (users s))
    then (Throw (QueryFailedError "insert or update violates foreign key constraint"), s)
    else
      let task := {| task_id := uuid (nextId s);
                     task_title := ct_title createTaskDto;
                     task_description := ct_description createTaskDto;
                     task_status := default TODO (ct_status createTaskDto);
                     task_priority := default MEDIUM (ct_priority createTaskDto);
                     task_dueDate := ct_dueDate createTaskDto;
                     task_userId := userId;
                     task_createdAt := now s;
                     task_updatedAt := now s |} in
      (Return task,
       {| users := users s; tasks := tasks s ++ [task]; cache := cache s;
          nextId := S (nextId s); now := now s |}).

Definition create (createTaskDto : CreateTaskDto) (user : User) : M Task :=
  savedTask <- insertTask createTaskDto (user_id user) ;;
  invalidateTasksCache (user_id user) ;;;
  ret savedTask.

Definition cacheKey (userId : string) (filterDto : FilterTaskDto) : string :=
  "tasks:" +:+ userId +:+ ":" +:+ JSON_stringify filterDto.

(** A string is truthy unless it is empty. *)
Definition truthy (s : string) : bool := negb (String.eqb s "").

(** The [WHERE] clause assembled by the query builder, on one row. *)
Definition whereClause (filterDto : FilterTaskDto) (user : User) (task : Task) : bool :=
  String.eqb (task_userId task) (user_id user)
  && match f_status filterDto with
     | Some status => bool_decide (task_status task = status)
     | None => true
     end
  && match f_priority filterDto with
     | Some priority => bool_decide (task_priority task = priority)
     | None => true
     end
  && match f_search filterDto with
     | Some search =>
         if truthy search then
           let pattern := "%" +:+ search +:+ "%" in
           Sql.holds (Sql.or3 (Sql.ilike (Some (task_title task)) pattern)
                              (Sql.ilike (task_description task) pattern))
         else true
     | None => true
     end.

(** [query.getManyAndCount()]: the requested page of the ordered matching
    rows, and the number of matching rows. *)
Definition getManyAndCount (filterDto : FilterTaskDto) (user : User) (table : list Task)
  : list Task * Z :=
  let matching := List.filter (whereClause filterDto user) table in
  let ordered := Sql.orderBy (f_sortBy filterDto) (f_sortOrder filterDto) matching in
  (Sql.skipTake ((f_page filterDto - 1) * f_limit filterDto) (f_limit filterDto) ordered,
   Z.of_nat (length matching)).

(** [Math.ceil(total / limit)] for a row count and a positive integer
    limit, where the quotient of the two doubles rounds up to the integer
    ceiling of the exact quotient. *)
Definition ceilDiv (total limit : Z) : Z := - ((- total) / limit).

Definition pageOf (filterDto : FilterTaskDto) (rows : list Task * Z) : TaskPage :=
  let '(tasks, total) := rows in
  {| data := tasks;
     meta := {| total := total;
                page := f_page filterDto;
                limit := f_limit filterDto;
                totalPages := ceilDiv total (f_limit filterDto);
                hasNextPage := Z.ltb (f_page filterDto) (ceilDiv total (f_limit filterDto));
                hasPreviousPage := Z.ltb 1 (f_page filterDto) |} |}.

Definition findAll (filterDto : FilterTaskDto) (user : User) : M Response :=
  let cacheKey := cacheKey (user_id user) filterDto in
  cachedResult <- CacheManager.get cacheKey ;;
  match cachedResult with
  | Some cachedResult => ret cachedResult
  | None =>
      rows <- gets (fun s => getManyAndCount filterDto user (tasks s)) ;;
      let result := RPage (pageOf filterDto rows) in
      CacheManager.set cacheKey result ;;;
      ret result
  end.

Definition findOne (id : string) (user : User) : M Task :=
  task <- gets (fun s => List.find (fun t => String.eqb (task_id t) id) (tasks s)) ;;
  match task with
  | None => throw (NotFoundException ("Task with ID " +:+ id +:+ " not found"))
  | Some task =>
      if negb (String.eqb (task_userId task) (user_id user))
         && negb (bool_decide (user_role user = ADMIN))
      then throw (ForbiddenException "You can only access your own tasks")
      else ret task
  end.

(** [Object.assign(task, updateTaskDto)]: the provided fields overwrite. *)
Definition assign (task : Task) (updateTaskDto : UpdateTaskDto) : Task :=
  {| task_id := task_id task;
     task_title := default (task_title task) (ut_title updateTaskDto);
     task_description :=
       match ut_description updateTaskDto with
       | Some d => Some d
       | None => task_description task
       end;
     task_status := default (task_status task) (ut_status updateTaskDto);
     task_priority := default (task_priority task) (ut_priority updateTaskDto);
     task_dueDate :=
       match ut_dueDate updateTaskDto with
       | Some d => Some d
       | None => task_dueDate task
       end;
     task_userId := task_userId task;
     task_createdAt := task_createdAt task;
     task_updatedAt := task_updatedAt task |}.

Definition touch (task : Task) (time : Z) : Task :=
  {| task_id := task_id task;
     task_title := task_title task;
     task_description := task_description task;
     task_status := task_status task;
     task_priority := task_priority task;
     task_dueDate := task_dueDate task;
     task_userId := task_userId task;
     task_createdAt := task_createdAt task;
     task_updatedAt := time |}.

(** [taskRepository.save] of a loaded row: when a column differs from the
    stored row the row is rewritten and [updatedAt] moves to the current
    time; when none differs nothing is written. *)
Definition saveTask (task : Task) : M Task :=
  fun s =>
    match List.find (fun t => String.eqb (task_id t) (task_id task)) (tasks s) with
    | Some stored =>
        if bool_decide (stored = task) then (Return task, s)
        else
          let saved := touch task (now s) in
          (Return saved,
           {| users := users s;
              tasks := List.map (fun t => if String.eqb (task_id t) (task_id task)
                                          then saved else t) (tasks s);
              cache := cache s; nextId := nextId s; now := now s |})
    | None =>
        (Return task,
         {| users := users s; tasks := tasks s ++ [task]; cache := cache s;
            nextId := nextId s; now := now s |})
    end.

Definition update (id : string) (updateTaskDto : UpdateTaskDto) (user : User) : M Task :=
  task <- findOne id user ;;
  updatedTask <- saveTask (assign task updateTaskDto) ;;
  invalidateTasksCache (user_id user) ;;;
  ret updatedTask.

(** [taskRepository.remove(task)]: deletes the row with the task's key. *)
Definition removeTask (task : Task) : M unit :=
  modify (fun s =>
    {| users := users s;
       tasks := List.filter (fun t => negb (String.eqb (task_id t) (task_id task))) (tasks s);
       cache := cache s; nextId := nextId s; now := now s |}).

Definition remove (id : string) (user : User) : M unit :=
  task <- findOne id user ;;
  removeTask task ;;;
  invalidateTasksCache (user_id user).

(** The object returned by [getStatistics]: [byStatus] is a JavaScript
    object keyed by the string value of a status. *)
Record Statistics : Type := mkStatistics {
  stat_total : Z;
  stat_byStatus : gmap string Z
}.

(** task.entity.ts: the string value of a member of [enum TaskStatus]. *)
Definition statusValue (status : TaskStatus) : string :=
  match status with
  | TODO => "todo"
  | IN_PROGRESS => "in_progress"
  | DONE => "done"
  end.

(** [SELECT task.status AS status, COUNT AS count ... GROUP BY task.status]
    over the given rows: one raw row for each status that occurs among
    them, with the number of rows that have it.  The driver hands the
    count over as its decimal text and [parseInt] reads it back; the raw
    row holds the number. *)
Definition groupByStatus (rows : list Task) : list (TaskStatus * Z) :=
  List.flat_map
    (fun status =>
       let count :=
         length (List.filter (fun t => bool_decide (task_status t = status)) rows) in
       if Nat.eqb count 0 then [] else [(status, Z.of_nat count)])
    [TODO; IN_PROGRESS; DONE].

(** [getStatistics(user)]: the [forEach] over the raw rows. *)
Definition getStatistics (user : User) : M Statistics :=
  stats <- gets (fun s =>
    groupByStatus
      (List.filter (fun t => String.eqb (task_userId t) (user_id user)) (tasks s))) ;;
  ret (List.fold_left
         (fun result stat =>
            {| stat_total := stat_total result + snd stat;
               stat_byStatus := <[statusValue (fst stat) := snd stat]> (stat_byStatus result) |})
         stats
         {| stat_total := 0; stat_byStatus := ∅ |}).

End WithExternals.
End TasksService.

(** ** The request pipeline: guards, interceptor, controller *)

(** The parts of the Express request that the guards and the interceptor
    read; [user] is what the authentication guard attached, if anything. *)
Record Request : Type := mkRequest {
  method : string;
  url : string;
  user : option User
}.

(** jwt-auth.guard.ts: [handleRequest(err, user, info)]. *)
Module JwtAuthGuard.

Definition handleRequest (err : option Exception) (user : option User) : Outcome User :=
  match err, user with
  | Some e, _ => Throw e
  | None, None => Throw (UnauthorizedException "Invalid or expired token")
  | None, Some u => Return u
  end.

End JwtAuthGuard.

(** roles.guard.ts *)
Module RolesGuard.

Definition roleName (r : UserRole) : string :=
  match r with ADMIN => "admin" | USER => "user" end.

(** [canActivate(context)], given what the reflector finds under
    [ROLES_KEY] for the route ([None] when nothing is declared) and the
    request. *)
Definition canActivate (requiredRoles : option (list UserRole)) (request : Request)
  : Outcome bool :=
  match requiredRoles with
  | None => Return true
  | Some [] => Return true
  | Some requiredRoles =>
      match user request with
      | None => Throw (ForbiddenException "User not authenticated")
      | Some user =>
          let hasRole :=
            existsb (fun role => bool_decide (user_role user = role)) requiredRoles in
          if negb hasRole
          then Throw (ForbiddenException
                        ("Access denied. Required role(s): "
                         +:+ String.concat ", " (List.map roleName requiredRoles)))
          else Return true
      end
  end.

End RolesGuard.

(** cache.interceptor.ts *)
Module HttpCacheInterceptor.

Definition cacheKey (url : string) : string := "cache:" +:+ url.

(** [intercept(context, next)]: [next] is the rest of the pipeline, run by
    [next.handle()]; the [tap] stores the response the handler emitted. *)
Definition intercept (request : Request) (next : M Response) : M Response :=
  if negb (String.eqb (method request) "GET") then next
  else
    let cacheKey := cacheKey (url request) in
    cachedResponse <- CacheManager.get cacheKey ;;
    match cachedResponse with
    | Some cachedResponse => ret cachedResponse
    | None =>
        response <- next ;;
        CacheManager.set cacheKey response ;;;
        ret response
    end.

End HttpCacheInterceptor.

(** tasks.controller.ts: the two cached read routes, behind the class-level
    [JwtAuthGuard], for a request on which the strategy raised no
    exception of its own. *)
Module TasksController.
Section WithExternals.
Context `{Externals}.

Definition guarded (request : Request) (handler : User -> M Response) : M Response :=
  match JwtAuthGuard.handleRequest None (user request) with
  | Throw e => throw e
  | Return user => HttpCacheInterceptor.intercept request (handler user)
  end.

Definition findAll (request : Request) (filterDto : FilterTaskDto) : M Response :=
  guarded request (fun user => TasksService.findAll filterDto user).

Definition findOne (request : Request) (id : string) : M Response :=
  guarded request (fun user => task <- TasksService.findOne id user ;; ret (RTask task)).

End WithExternals.
End TasksController.

(** users.controller.ts: the routes behind the class-level [JwtAuthGuard]
    and [RolesGuard]; a route without [@Roles] has no roles metadata. *)
Module UsersController.

(** The two guards in the order of [@UseGuards], then the handler with
    the user that [@CurrentUser()] reads from the request.  The request
    is one on which the strategy raised no exception of its own: passport
    resolved a user or none. *)
Definition guarded {A} (requiredRoles : option (list UserRole)) (request : Request)
    (handler : User -> M A) : M A :=
  match JwtAuthGuard.handleRequest None (user request) with
  | Throw e => throw e
  | Return currentUser =>
      match RolesGuard.canActivate requiredRoles request with
      | Throw e => throw e
      | Return _ => handler currentUser
      end
  end.

Definition getProfile (request : Request) : M User :=
  guarded None request (fun user => ret user).

Definition findOne (request : Request) (id : string) : M User :=
  guarded None request (fun _ => UsersService.findOne id).

Definition update (request : Request) (id : string) (updateUserDto : UpdateUserDto)
  : M User :=
  guarded None request (fun currentUser => UsersService.update id updateUserDto currentUser).

Definition remove (request : Request) (id : string) : M unit :=
  guarded (Some [ADMIN]) request (fun currentUser => UsersService.remove id currentUser).

Definition hardDelete (request : Request) (id : string) : M unit :=
  guarded (Some [ADMIN]) request (fun currentUser => UsersService.hardDelete id currentUser).

End UsersController.

(** ** Sample collaborators and data

    A concrete choice of the library calls and a small database, used to
    run the services on closed inputs. *)
Module Sample.

Fixpoint tally (n : nat) : string :=
  match n with
  | O => ""
  | S n' => String "i" (tally n')
  end.

Definition statusName (s : TaskStatus) : string :=
  match s with TODO => "todo" | IN_PROGRESS => "in_progress" | DONE => "done" end.

Definition priorityName (p : TaskPriority) : string :=
  match p with LOW => "low" | MEDIUM => "medium" | HIGH => "high" end.

Definition sortFieldName (f : SortField) : string :=
  match f with
  | SortCreatedAt => "createdAt"
  | SortUpdatedAt => "updatedAt"
  | SortDueDate => "dueDate"
  | SortPriority => "priority"
  end.

Definition sortOrderName (o : SortOrder) : string :=
  match o with ASC => "ASC" | DESC => "DESC" end.

Definition field (name : string) (value : option string) : string :=
  match value with
  | Some v => name +:+ "=" +:+ v +:+ ";"
  | None => ""
  end.

(** A stand-in for the libraries: a tagged hash, a token that spells out
    its payload, keys numbered in unary, and a serialisation of the filter
    that lists the fields that are set. *)
Definition externals : Externals :=
  {| bcrypt_hash := fun password => "hash:" +:+ password;
     bcrypt_compare := fun password hash => String.eqb hash ("hash:" +:+ password);
     jwt_sign := fun payload => "jwt:" +:+ sub payload +:+ ":" +:+ jwt_email payload;
     uuid := fun n => "id-" +:+ tally n;
     JSON_stringify := fun filterDto =>
       field "status" (statusName <$> f_status filterDto)
       +:+ field "priority" (priorityName <$> f_priority filterDto)
       +:+ field "search" (f_search filterDto)
       +:+ field "page" (Some (tally (Z.to_nat (f_page filterDto))))
       +:+ field "limit" (Some (tally (Z.to_nat (f_limit filterDto))))
       +:+ field "sortBy" (Some (sortFieldName (f_sortBy filterDto)))
       +:+ field "sortOrder" (Some (sortOrderName (f_sortOrder filterDto))) |}.

Definition alice : User :=
  {| user_id := "u-alice"; user_email := "alice@example.com";
     user_password := "hash:Secret123"; user_firstName := "Alice";
     user_lastName := "Archer"; user_role := USER; user_isActive := true |}.

Definition bob : User :=
  {| user_id := "u-bob"; user_email := "bob@example.com";
     user_password := "hash:Hunter22"; user_firstName := "Bob";
     user_lastName := "Baker"; user_role := USER; user_isActive := true |}.

Definition root : User :=
  {| user_id := "u-root"; user_email := "root@example.com";
     user_password := "hash:Admin000"; user_firstName := "Rose";
     user_lastName := "Root"; user_role := ADMIN; user_isActive := true |}.

Definition carol : User :=
  {| user_id := "u-carol"; user_email := "carol@example.com";
     user_password := "hash:Carol999"; user_firstName := "Carol";
     user_lastName := "Clerk"; user_role := USER; user_isActive := false |}.

Definition report : Task :=
  {| task_id := "t-1"; task_title := "Quarterly Report";
     task_description := Some "numbers for the board";
     task_status := DONE; task_priority := HIGH; task_dueDate := Some 500;
     task_userId := "u-alice"; task_createdAt := 100; task_updatedAt := 150 |}.

Definition groceries : Task :=
  {| task_id := "t-2"; task_title := "Groceries";
     task_description := None;
     task_status := TODO; task_priority := LOW; task_dueDate := None;
     task_userId := "u-alice"; task_createdAt := 200; task_updatedAt := 200 |}.

Definition audit : Task :=
  {| task_id := "t-3"; task_title := "Audit";
     task_description := Some "send the report to finance";
     task_status := DONE; task_priority := MEDIUM; task_dueDate := Some 300;
     task_userId := "u-bob"; task_createdAt := 300; task_updatedAt := 300 |}.

Definition db : State :=
  {| users := [alice; bob; root; carol];
     tasks := [report; groceries; audit];
     cache := ∅; nextId := 7; now := 1000 |}.

(** The default criteria of [FilterTaskDto]. *)
Definition defaults : FilterTaskDto :=
  {| f_status := None; f_priority := None; f_search := None;
     f_page := 1; f_limit := 10; f_sortBy := SortCreatedAt; f_sortOrder := DESC |}.

Definition requestOf (u : User) (target : string) : Request :=
  {| method := "GET"; url := target; user := Some u |}.

(** A database in which Alice owns twenty-five tasks, created one time
    unit apart. *)
Definition numbered (n : nat) : Task :=
  {| task_id := "t-" +:+ tally n; task_title := "Task " +:+ tally n;
     task_description := None;
     task_status := TODO; task_priority := MEDIUM; task_dueDate := None;
     task_userId := "u-alice";
     task_createdAt := Z.of_nat n; task_updatedAt := Z.of_nat n |}.

Definition busy : State :=
  {| users := [alice; bob; root; carol];
     tasks := List.map numbered (seq 0 25);
     cache := ∅; nextId := 30; now := 1000 |}.

Definition thirdPage : FilterTaskDto :=
  {| f_status := None; f_priority := None; f_search := None;
     f_page := 3; f_limit := 10; f_sortBy := SortCreatedAt; f_sortOrder := DESC |}.

(** [?search=%25], the search text being [%]. *)
Definition percentSearch : FilterTaskDto :=
  {| f_status := None; f_priority := None; f_search := Some "%";
     f_page := 1; f_limit := 10; f_sortBy := SortCreatedAt; f_sortOrder := DESC |}.

(** [?status=done&search=100%25], the search text being [100%]. *)
Definition donePercent : FilterTaskDto :=
  {| f_status := Some DONE; f_priority := None; f_search := Some "100%";
     f_page := 1; f_limit := 10; f_sortBy := SortCreatedAt; f_sortOrder := DESC |}.

Definition budget : Task :=
  {| task_id := "t-9"; task_title := "Budget of 1000 units";
     task_description := None;
     task_status := DONE; task_priority := MEDIUM; task_dueDate := None;
     task_userId := "u-alice"; task_createdAt := 400; task_updatedAt := 400 |}.

End Sample.

(** ** Reference values of the statements *)
Module Reference.
Section WithExternals.
Context `{Externals}.


End WithExternals.

(** The criteria with another page number. *)
Definition withPage (filterDto : FilterTaskDto) (number : Z) : FilterTaskDto :=
  {| f_status := f_status filterDto;
     f_priority := f_priority filterDto;
     f_search := f_search filterDto;
     f_page := number;
     f_limit := f_limit filterDto;
     f_sortBy := f_sortBy filterDto;
     f_sortOrder := f_sortOrder filterDto |}.

(** A text without a colon, as the generated keys are. *)
Definition noColon (text : string) : bool :=
  forallb (fun c => negb (Ascii.eqb c ":")) (list_ascii_of_string text).

(** The criteria without the search text. *)
Definition withoutSearch (filterDto : FilterTaskDto) : FilterTaskDto :=
  {| f_status := f_status filterDto;
     f_priority := f_priority filterDto;
     f_search := None;
     f_page := f_page filterDto;
     f_limit := f_limit filterDto;
     f_sortBy := f_sortBy filterDto;
     f_sortOrder := f_sortOrder filterDto |}.

(** No two distinct rows are level in the requested order: the rows
    differ pairwise on the sort column. *)
Definition noTies (sortBy : SortField) (sortOrder : SortOrder) (rows : list Task) : bool :=
  forallb
    (fun a =>
       forallb
         (fun b =>
            implb (Sql.rowLeb sortBy sortOrder a b && Sql.rowLeb sortBy sortOrder b a)
                  (bool_decide (a = b)))
         rows)
    rows.

End Reference.

(** * Properties *)

(** ** Shared lemmas *)

(** Unfolds the monad's operations, so that a service call on a state
    reduces to the pair of its outcome and its final state. *)
Ltac run := unfold bind, gets, ret, throw, modify in *; simpl in *.

Lemma find_none_of {A} (f : A -> bool) (l : list A) :
  (forall x, In x l -> f x = false) -> List.find f l = None.
Proof.
  induction l as [|a l IH]; simpl; intros Hall; [reflexivity|].
  rewrite (Hall a (or_introl eq_refl)). apply IH. intros x Hx. apply Hall. now right.
Qed.

Lemma find_some_of {A} (f : A -> bool) (l : list A) (x : A) :
  In x l -> f x = true -> exists y, List.find f l = Some y /\ In y l /\ f y = true.
Proof.
  induction l as [|a l IH]; simpl; intros Hin Hf; [contradiction|].
  destruct (f a) eqn:Ha.
  - exists a. auto.
  - destruct Hin as [->|Hin]; [congruence|].
    destruct (IH Hin Hf) as (y & Hy & Hyin & Hfy). exists y. auto.
Qed.

Lemma find_found {A} (f : A -> bool) (l : list A) (x : A) :
  List.find f l = Some x -> In x l /\ f x = true.
Proof.
  induction l as [|a l IH]; simpl; [discriminate|].
  destruct (f a) eqn:Ha.
  - intros [= <-]. auto.
  - intros Hx. destruct (IH Hx). auto.
Qed.

Lemma eqb_false_of_neq (a b : string) : a <> b -> String.eqb a b = false.
Proof. intros Hne. now apply String.eqb_neq. Qed.


(** ** Authentication *)

Section AuthProperties.
Context `{Externals}.

Lemma users_findOne_missing (id : string) (s : State) :
  (forall u, In u (users s) -> user_id u <> id) ->
  UsersService.findOne id s
  = (Throw (NotFoundException ("User with ID " +:+ id +:+ " not found")), s).
Proof.
  intros Hnone. unfold UsersService.findOne. run.
  rewrite find_none_of; [reflexivity|].
  intros u Hu. apply eqb_false_of_neq. auto.
Qed.

Lemma users_findByEmail_missing (email : string) (s : State) :
  (forall u, In u (users s) -> user_email u <> email) ->
  UsersService.findByEmail email s = (Return None, s).
Proof.
  intros Hnone. unfold UsersService.findByEmail. run.
  rewrite find_none_of; [reflexivity|].
  intros u Hu. apply eqb_false_of_neq. auto.
Qed.

(** C1 (the code diverges from the claim): for a token payload whose
    subject is the id of no stored user, [validateUser] does not return
    [null]; the [NotFoundException] of [UsersService.findOne] propagates
    and the state is left as it was. *)
Theorem validateUser_missing_user_throws (payload : JwtPayload) (s : State) :
  (forall u, In u (users s) -> user_id u <> sub payload) ->
  AuthService.validateUser payload s
  = (Throw (NotFoundException ("User with ID " +:+ sub payload +:+ " not found")), s).
Proof.
  intros Hnone. unfold AuthService.validateUser, bind.
  now rewrite users_findOne_missing.
Qed.

(** C4: a login fails with Unauthorized when no stored user has the
    email, when the user found is inactive, and when the password does
    not verify against the stored hash.  The first and the last carry the
    same message, "Invalid credentials"; the inactive case carries
    "Account is deactivated", which differs from it.  None of the three
    changes the state. *)
Theorem login_failures (loginDto : LoginDto) (s : State) :
  ((forall u, In u (users s) -> user_email u <> login_email loginDto) ->
   AuthService.login loginDto s
   = (Throw (UnauthorizedException "Invalid credentials"), s))
  /\ (forall u,
        List.find (fun u => String.eqb (user_email u) (login_email loginDto)) (users s)
        = Some u ->
        user_isActive u = false ->
        AuthService.login loginDto s
        = (Throw (UnauthorizedException "Account is deactivated"), s))
  /\ (forall u,
        List.find (fun u => String.eqb (user_email u) (login_email loginDto)) (users s)
        = Some u ->
        user_isActive u = true ->
        bcrypt_compare (login_password loginDto) (user_password u) = false ->
        AuthService.login loginDto s
        = (Throw (UnauthorizedException "Invalid credentials"), s))
  /\ getMessage (UnauthorizedException "Invalid credentials")
     <> getMessage (UnauthorizedException "Account is deactivated").
Proof.
  repeat split.
  - intros Hnone. unfold AuthService.login, bind.
    now rewrite users_findByEmail_missing.
  - intros u Hfind Hinactive. unfold AuthService.login, UsersService.findByEmail. run.
    now rewrite Hfind, Hinactive.
  - intros u Hfind Hactive Hbad. unfold AuthService.login, UsersService.findByEmail. run.
    now rewrite Hfind, Hactive, Hbad.
  - discriminate.
Qed.

End AuthProperties.

Lemma validateUser_missing_user_throws_witness :
  AuthService.validateUser {| sub := "u-404"; jwt_email := "ghost@example.com" |} Sample.db
  = (Throw (NotFoundException "User with ID u-404 not found"), Sample.db).
Proof.
  apply (validateUser_missing_user_throws
           {| sub := "u-404"; jwt_email := "ghost@example.com" |} Sample.db).
  simpl. intros u [<-|[<-|[<-|[<-|[]]]]]; discriminate.
Defined.

Lemma login_failures_witness :
  @AuthService.login Sample.externals
    {| login_email := "nobody@example.com"; login_password := "Secret123" |} Sample.db
  = (Throw (UnauthorizedException "Invalid credentials"), Sample.db)
  /\ @AuthService.login Sample.externals
       {| login_email := "carol@example.com"; login_password := "Carol999" |} Sample.db
     = (Throw (UnauthorizedException "Account is deactivated"), Sample.db)
  /\ @AuthService.login Sample.externals
       {| login_email := "alice@example.com"; login_password := "wrong" |} Sample.db
     = (Throw (UnauthorizedException "Invalid credentials"), Sample.db).
Proof.
  split; [|split].
  - apply (@login_failures Sample.externals
             {| login_email := "nobody@example.com"; login_password := "Secret123" |} Sample.db).
    simpl. intros u [<-|[<-|[<-|[<-|[]]]]]; discriminate.
  - apply (proj1 (proj2 (@login_failures Sample.externals
             {| login_email := "carol@example.com"; login_password := "Carol999" |} Sample.db))
             Sample.carol); reflexivity.
  - apply (proj1 (proj2 (proj2 (@login_failures Sample.externals
             {| login_email := "alice@example.com"; login_password := "wrong" |} Sample.db)))
             Sample.alice); reflexivity.
Defined.

Section RegisterProperties.
Context `{Externals}.




End RegisterProperties.


(** ** Access to a single task *)

Lemma tasks_findOne_found (id : string) (caller : User) (s : State) (task : Task) :
  List.find (fun t => String.eqb (task_id t) id) (tasks s) = Some task ->
  TasksService.findOne id caller s
  = if negb (String.eqb (task_userId task) (user_id caller))
       && negb (bool_decide (user_role caller = ADMIN))
    then (Throw (ForbiddenException "You can only access your own tasks"), s)
    else (Return task, s).
Proof.
  intros Hfind. unfold TasksService.findOne. run. rewrite Hfind.
  now destruct (negb (String.eqb (task_userId task) (user_id caller))
                && negb (bool_decide (user_role caller = ADMIN))).
Qed.

Lemma tasks_findOne_missing (id : string) (caller : User) (s : State) :
  (forall t, In t (tasks s) -> task_id t <> id) ->
  TasksService.findOne id caller s
  = (Throw (NotFoundException ("Task with ID " +:+ id +:+ " not found")), s).
Proof.
  intros Hnone. unfold TasksService.findOne. run.
  rewrite find_none_of; [reflexivity|].
  intros t Ht. apply eqb_false_of_neq. auto.
Qed.

(** C3: [findOne(id, caller)] fails with NotFound when no task row has
    the id; when [task] is the row the repository finds for the id, it
    fails with Forbidden if the owner of [task] is not the caller and the
    caller is not an admin, and returns [task] if the caller owns it or is
    an admin.  So a non-admin gets Forbidden for another user's task,
    and an admin gets the task.  No case changes the state. *)
Theorem tasks_findOne_outcomes (id : string) (caller : User) (s : State) :
  ((forall t, In t (tasks s) -> task_id t <> id) ->
   TasksService.findOne id caller s
   = (Throw (NotFoundException ("Task with ID " +:+ id +:+ " not found")), s))
  /\ (forall task,
        List.find (fun t => String.eqb (task_id t) id) (tasks s) = Some task ->
        (task_userId task <> user_id caller -> user_role caller <> ADMIN ->
         TasksService.findOne id caller s
         = (Throw (ForbiddenException "You can only access your own tasks"), s))
        /\ (task_userId task = user_id caller \/ user_role caller = ADMIN ->
            TasksService.findOne id caller s = (Return task, s))).
Proof.
  split; [apply tasks_findOne_missing|].
  intros task Hfind. rewrite (tasks_findOne_found id caller s task Hfind). split.
  - intros Howner Hrole.
    rewrite (eqb_false_of_neq _ _ Howner).
    now rewrite (bool_decide_eq_false_2 _ Hrole).
  - intros [Howner|Hrole].
    + now rewrite Howner, String.eqb_refl.
    + rewrite (bool_decide_eq_true_2 _ Hrole). simpl. now rewrite andb_false_r.
Qed.

Lemma tasks_findOne_outcomes_witness :
  TasksService.findOne "t-404" Sample.alice Sample.db
  = (Throw (NotFoundException "Task with ID t-404 not found"), Sample.db)
  /\ TasksService.findOne "t-3" Sample.alice Sample.db
     = (Throw (ForbiddenException "You can only access your own tasks"), Sample.db)
  /\ TasksService.findOne "t-3" Sample.root Sample.db = (Return Sample.audit, Sample.db)
  /\ TasksService.findOne "t-3" Sample.bob Sample.db = (Return Sample.audit, Sample.db).
Proof.
  split; [|split; [|split]].
  - apply (tasks_findOne_outcomes "t-404" Sample.alice Sample.db).
    simpl. intros t [<-|[<-|[<-|[]]]]; discriminate.
  - apply (proj1 (proj2 (tasks_findOne_outcomes "t-3" Sample.alice Sample.db)
                    Sample.audit eq_refl)); discriminate.
  - apply (proj2 (proj2 (tasks_findOne_outcomes "t-3" Sample.root Sample.db)
                    Sample.audit eq_refl)). right. reflexivity.
  - apply (proj2 (proj2 (tasks_findOne_outcomes "t-3" Sample.bob Sample.db)
                    Sample.audit eq_refl)). left. reflexivity.
Defined.

(** ** The roles guard *)

Lemma existsb_role_In (r : UserRole) (roles : list UserRole) :
  existsb (fun role => bool_decide (r = role)) roles = true <-> In r roles.
Proof.
  rewrite existsb_exists. split.
  - intros (x & Hx & Heq). apply bool_decide_eq_true_1 in Heq. now subst.
  - intros Hin. exists r. split; [assumption|]. now apply bool_decide_eq_true_2.
Qed.

(** C10: the guard allows the request when the route declares no roles
    or an empty list of roles.  When the route declares at least one
    role, the guard fails with Forbidden if no user is attached to the
    request, allows the request if the role of the attached user is one
    of the declared roles, and fails with Forbidden if it is not. *)
Theorem canActivate_spec (requiredRoles : option (list UserRole)) (request : Request) :
  (requiredRoles = None \/ requiredRoles = Some [] ->
   RolesGuard.canActivate requiredRoles request = Return true)
  /\ (forall roles,
        requiredRoles = Some roles -> roles <> [] ->
        (user request = None ->
         RolesGuard.canActivate requiredRoles request
         = Throw (ForbiddenException "User not authenticated"))
        /\ (forall u, user request = Some u ->
              (In (user_role u) roles ->
               RolesGuard.canActivate requiredRoles request = Return true)
              /\ (~ In (user_role u) roles ->
                  isForbidden (RolesGuard.canActivate requiredRoles request) = true))).
Proof.
  split.
  - now intros [->| ->].
  - intros roles -> Hne. destruct roles as [|r roles]; [contradiction|].
    unfold RolesGuard.canActivate. split.
    + now intros ->.
    + intros u ->. split.
      * intros Hin. apply existsb_role_In in Hin. now rewrite Hin.
      * intros Hnot.
        destruct (existsb (fun role => bool_decide (user_role u = role)) (r :: roles)) eqn:Hex.
        -- apply existsb_role_In in Hex. contradiction.
        -- reflexivity.
Qed.

Lemma canActivate_spec_witness :
  RolesGuard.canActivate (Some []) (Sample.requestOf Sample.alice "/api/v1/users/me")
  = Return true
  /\ RolesGuard.canActivate (Some [ADMIN])
       {| method := "GET"; url := "/api/v1/users"; user := None |}
     = Throw (ForbiddenException "User not authenticated")
  /\ RolesGuard.canActivate (Some [ADMIN]) (Sample.requestOf Sample.root "/api/v1/users")
     = Return true
  /\ isForbidden (RolesGuard.canActivate (Some [ADMIN])
                    (Sample.requestOf Sample.alice "/api/v1/users")) = true.
Proof.
  split; [|split; [|split]].
  - apply (canActivate_spec (Some []) (Sample.requestOf Sample.alice "/api/v1/users/me")).
    right. reflexivity.
  - apply (proj2 (canActivate_spec (Some [ADMIN])
                    {| method := "GET"; url := "/api/v1/users"; user := None |})
             [ADMIN] eq_refl); [discriminate|reflexivity].
  - refine (proj1 (proj2 (proj2 (canActivate_spec (Some [ADMIN])
                    (Sample.requestOf Sample.root "/api/v1/users"))
             [ADMIN] eq_refl _) Sample.root eq_refl) _); [discriminate|].
    simpl. auto.
  - refine (proj2 (proj2 (proj2 (canActivate_spec (Some [ADMIN])
                    (Sample.requestOf Sample.alice "/api/v1/users"))
             [ADMIN] eq_refl _) Sample.alice eq_refl) _); [discriminate|].
    simpl. intros [Heq|[]]. discriminate.
Defined.

(** ** The HTTP cache interceptor *)

Lemma intercept_hit (request : Request) (next : M Response) (s : State) (cached : Response) :
  method request = "GET" ->
  cache s !! HttpCacheInterceptor.cacheKey (url request) = Some cached ->
  HttpCacheInterceptor.intercept request next s = (Return cached, s).
Proof.
  intros Hget Hhit. unfold HttpCacheInterceptor.intercept. rewrite Hget.
  change (String.eqb "GET" "GET") with true. cbv [negb].
  unfold bind, CacheManager.get, gets, ret. now rewrite Hhit.
Qed.

Lemma intercept_stores (request : Request) (next : M Response) (s s1 : State)
    (response : Response) :
  method request = "GET" ->
  HttpCacheInterceptor.intercept request next s = (Return response, s1) ->
  cache s1 !! HttpCacheInterceptor.cacheKey (url request) = Some response.
Proof.
  intros Hget. unfold HttpCacheInterceptor.intercept. rewrite Hget.
  change (String.eqb "GET" "GET") with true. cbv [negb].
  unfold bind, CacheManager.get, CacheManager.set, gets, ret, modify.
  destruct (cache s !! HttpCacheInterceptor.cacheKey (url request)) as [cached|] eqn:Hlook.
  - intros [= <- <-]. assumption.
  - destruct (next s) as [[r|e] s0]; [|discriminate].
    intros [= <- <-]. cbn [cache]. apply lookup_insert_eq.
Qed.

Section InterceptorProperties.
Context `{Externals}.

(** C2: the key under which the interceptor files a response is computed
    from the URL of the request alone.  Once a GET request of one caller
    has been answered through the interceptor, the answer is stored under
    that key, and as long as it is stored any GET request to the same URL
    is answered with it, whoever the caller and whatever the handler would
    have returned; the handler is not run and the state does not change.
    In particular the task listing of user A is served to user B. *)
Theorem interceptor_serves_cached_response_to_any_caller
    (requestA requestB : Request) (nextA nextB : M Response) (s s1 : State)
    (response : Response) :
  method requestA = "GET" -> method requestB = "GET" -> url requestB = url requestA ->
  HttpCacheInterceptor.intercept requestA nextA s = (Return response, s1) ->
  cache s1 !! HttpCacheInterceptor.cacheKey (url requestA) = Some response
  /\ (forall s2,
        cache s2 !! HttpCacheInterceptor.cacheKey (url requestA) = Some response ->
        HttpCacheInterceptor.intercept requestB nextB s2 = (Return response, s2))
  /\ (forall userA userB filterA filterB,
        user requestA = Some userA -> user requestB = Some userB ->
        nextA = TasksService.findAll filterA userA ->
        TasksController.findAll requestA filterA s = (Return response, s1)
        /\ TasksController.findAll requestB filterB s1 = (Return response, s1)).
Proof.
  intros HgetA HgetB Hurl Hfirst.
  pose proof (intercept_stores requestA nextA s s1 response HgetA Hfirst) as Hstored.
  split; [assumption|]. split.
  - intros s2 Hstill. apply intercept_hit; [assumption|]. now rewrite Hurl.
  - intros userA userB filterA filterB HuserA HuserB ->.
    unfold TasksController.findAll, TasksController.guarded.
    rewrite HuserA, HuserB. simpl. split; [assumption|].
    apply intercept_hit; [assumption|]. now rewrite Hurl.
Qed.

End InterceptorProperties.

Lemma interceptor_serves_cached_response_to_any_caller_witness :
  let requestA := Sample.requestOf Sample.alice "/api/v1/tasks" in
  let requestB := Sample.requestOf Sample.bob "/api/v1/tasks" in
  let response :=
    RPage (TasksService.pageOf Sample.defaults
             (TasksService.getManyAndCount Sample.defaults Sample.alice (tasks Sample.db))) in
  let s1 := snd (@TasksController.findAll Sample.externals requestA Sample.defaults Sample.db) in
  @TasksController.findAll Sample.externals requestA Sample.defaults Sample.db
  = (Return response, s1)
  /\ @TasksController.findAll Sample.externals requestB Sample.defaults s1
     = (Return response, s1).
Proof.
  intros requestA requestB response s1.
  refine (proj2 (proj2 (@interceptor_serves_cached_response_to_any_caller
            Sample.externals requestA requestB
            (@TasksService.findAll Sample.externals Sample.defaults Sample.alice)
            (@TasksService.findAll Sample.externals Sample.defaults Sample.bob)
            Sample.db s1 response eq_refl eq_refl eq_refl _))
            Sample.alice Sample.bob Sample.defaults Sample.defaults
            eq_refl eq_refl eq_refl).
  vm_compute. reflexivity.
Defined.

(** ** Task listing and the cache *)

Section ListingProperties.
Context `{Externals}.

Lemma findAll_miss (filterDto : FilterTaskDto) (caller : User) (s : State) :
  cache s !! TasksService.cacheKey (user_id caller) filterDto = None ->
  TasksService.findAll filterDto caller s
  = (Return (RPage (TasksService.pageOf filterDto
                      (TasksService.getManyAndCount filterDto caller (tasks s)))),
     {| users := users s; tasks := tasks s;
        cache := <[TasksService.cacheKey (user_id caller) filterDto :=
                     RPage (TasksService.pageOf filterDto
                              (TasksService.getManyAndCount filterDto caller (tasks s)))]>
                   (cache s);
        nextId := nextId s; now := now s |}).
Proof.
  intros Hmiss. unfold TasksService.findAll, CacheManager.get, CacheManager.set.
  unfold bind, gets, ret, modify. now rewrite Hmiss.
Qed.

Lemma findAll_hit (filterDto : FilterTaskDto) (caller : User) (s : State) (cached : Response) :
  cache s !! TasksService.cacheKey (user_id caller) filterDto = Some cached ->
  TasksService.findAll filterDto caller s = (Return cached, s).
Proof.
  intros Hhit. unfold TasksService.findAll, CacheManager.get.
  unfold bind, gets, ret. now rewrite Hhit.
Qed.

Lemma create_resets (createTaskDto : CreateTaskDto) (writer : User) (s s' : State) (task : Task) :
  TasksService.create createTaskDto writer s = (Return task, s') -> cache s' = ∅.
Proof.
  unfold TasksService.create, TasksService.insertTask, TasksService.invalidateTasksCache,
    CacheManager.reset.
  unfold bind, ret, modify.
  destruct (negb (existsb (fun u => String.eqb (user_id u) (user_id writer)) (users s)));
    [discriminate|].
  now intros [= _ <-].
Qed.

Lemma update_resets (id : string) (updateTaskDto : UpdateTaskDto) (writer : User)
    (s s' : State) (task : Task) :
  TasksService.update id updateTaskDto writer s = (Return task, s') -> cache s' = ∅.
Proof.
  unfold TasksService.update, TasksService.invalidateTasksCache, CacheManager.reset.
  unfold bind, ret, modify.
  destruct (TasksService.findOne id writer s) as [[found|e] s0]; [|discriminate].
  destruct (TasksService.saveTask (TasksService.assign found updateTaskDto) s0)
    as [[saved|e] s1]; [|discriminate].
  now intros [= _ <-].
Qed.

Lemma remove_resets (id : string) (writer : User) (s s' : State) :
  TasksService.remove id writer s = (Return tt, s') -> cache s' = ∅.
Proof.
  unfold TasksService.remove, TasksService.removeTask, TasksService.invalidateTasksCache,
    CacheManager.reset.
  unfold bind, ret, modify.
  destruct (TasksService.findOne id writer s) as [[found|e] s0]; [|discriminate].
  now intros [= <-].
Qed.

(** C8: when a task write ([create], [update] or [remove]) by any user
    completes, the cache store is empty: no key is bound, whatever owner
    or criteria it was computed from.  The next listing of every user,
    for every criteria, is therefore computed from the task table as the
    write left it. *)
Theorem task_write_resets_whole_cache (writer : User) (s s' : State) :
  (exists createTaskDto task, TasksService.create createTaskDto writer s = (Return task, s'))
  \/ (exists id updateTaskDto task,
        TasksService.update id updateTaskDto writer s = (Return task, s'))
  \/ (exists id, TasksService.remove id writer s = (Return tt, s')) ->
  cache s' = ∅
  /\ (forall key, cache s' !! key = None)
  /\ (forall reader filterDto,
        fst (TasksService.findAll filterDto reader s')
        = Return (RPage (TasksService.pageOf filterDto
                           (TasksService.getManyAndCount filterDto reader (tasks s'))))).
Proof.
  intros Hwrite.
  assert (Hempty : cache s' = ∅).
  { destruct Hwrite as [(dto & task & Hc)|[(id & dto & task & Hu)|(id & Hr)]].
    - eapply create_resets; eassumption.
    - eapply update_resets; eassumption.
    - eapply remove_resets; eassumption. }
  split; [assumption|]. split.
  - intros key. rewrite Hempty. apply lookup_empty.
  - intros reader filterDto. rewrite findAll_miss; [reflexivity|].
    rewrite Hempty. apply lookup_empty.
Qed.

(** C9: a listing always returns a payload, and leaves it stored under
    the key computed from the caller's id and the criteria.  While that
    entry is stored, a listing with the same criteria by a caller with
    the same id returns the same payload and does not change the state;
    the payload is the stored one, whatever the task table now holds. *)
Theorem findAll_repeated_is_served_from_cache
    (filterDto : FilterTaskDto) (caller : User) (s : State) :
  exists payload s1,
    TasksService.findAll filterDto caller s = (Return payload, s1)
    /\ cache s1 !! TasksService.cacheKey (user_id caller) filterDto = Some payload
    /\ TasksService.findAll filterDto caller s1 = (Return payload, s1)
    /\ (forall s2 caller',
          user_id caller' = user_id caller ->
          cache s2 !! TasksService.cacheKey (user_id caller) filterDto = Some payload ->
          TasksService.findAll filterDto caller' s2 = (Return payload, s2)).
Proof.
  destruct (cache s !! TasksService.cacheKey (user_id caller) filterDto) as [cached|] eqn:Hlook.
  - exists cached, s. repeat split.
    + now apply findAll_hit.
    + assumption.
    + now apply findAll_hit.
    + intros s2 caller' Hid Hstill. apply findAll_hit. now rewrite Hid.
  - eexists. eexists. split; [now apply findAll_miss|].
    assert (Hstored : forall v (m : gmap string Response) k, <[k := v]> m !! k = Some v)
      by (intros; apply lookup_insert_eq).
    repeat split.
    + cbn [cache]. apply Hstored.
    + apply findAll_hit. cbn [cache]. apply Hstored.
    + intros s2 caller' Hid Hstill. apply findAll_hit. now rewrite Hid.
Qed.

End ListingProperties.

Lemma findAll_repeated_is_served_from_cache_witness :
  exists payload s1,
    @TasksService.findAll Sample.externals Sample.defaults Sample.alice Sample.db
    = (Return payload, s1)
    /\ @TasksService.findAll Sample.externals Sample.defaults Sample.alice s1
       = (Return payload, s1)
    /\ fst (@TasksService.findAll Sample.externals Sample.defaults Sample.alice
              {| users := users s1; tasks := []; cache := cache s1;
                 nextId := nextId s1; now := now s1 |})
       = Return payload.
Proof.
  destruct (@findAll_repeated_is_served_from_cache Sample.externals Sample.defaults
              Sample.alice Sample.db) as (payload & s1 & Hfirst & Hstored & Hsecond & Hany).
  exists payload, s1. split; [exact Hfirst|]. split; [exact Hsecond|].
  rewrite (Hany {| users := users s1; tasks := []; cache := cache s1;
                   nextId := nextId s1; now := now s1 |} Sample.alice eq_refl Hstored).
  reflexivity.
Defined.

Lemma task_write_resets_whole_cache_witness :
  let cached := snd (@TasksService.findAll Sample.externals Sample.defaults Sample.alice
                       Sample.db) in
  let written := snd (@TasksService.remove "t-3" Sample.bob cached) in
  cache cached !! @TasksService.cacheKey Sample.externals "u-alice" Sample.defaults <> None
  /\ cache written = ∅.
Proof.
  intros cached written. split; [vm_compute; discriminate|].
  apply (@task_write_resets_whole_cache Sample.externals Sample.bob cached written).
  right. right. exists "t-3". vm_compute. reflexivity.
Defined.

(** ** Page metadata *)

Lemma ceilDiv_least (total limit : Z) :
  0 < limit ->
  forall n, TasksService.ceilDiv total limit <= n <-> total <= n * limit.
Proof.
  intros Hpos n. unfold TasksService.ceilDiv.
  pose proof (Z.div_mod (- total) limit ltac:(lia)) as Hdm.
  pose proof (Z.mod_pos_bound (- total) limit Hpos) as Hr.
  split; intros Hle; nia.
Qed.

Section PageMetaProperties.
Context `{Externals}.

(** C6: a listing computed from the task table (no entry stored under
    its key) with a limit of at least 1 has this metadata: [total] is
    the number of rows of the table that pass the [WHERE] clause, before
    paging; [page] and [limit] are those of the criteria; [totalPages] is
    the ceiling of [total / limit], that is the least integer [n] with
    [total <= n * limit]; [hasNextPage] tells whether [page < totalPages]
    and [hasPreviousPage] whether [page > 1].  With 25 matching rows,
    page 3 and limit 10 the metadata is
    [{total: 25, page: 3, limit: 10, totalPages: 3, hasNextPage: false,
    hasPreviousPage: true}]. *)
Theorem findAll_page_meta (filterDto : FilterTaskDto) (caller : User) (s : State) :
  1 <= f_limit filterDto ->
  cache s !! TasksService.cacheKey (user_id caller) filterDto = None ->
  exists listing,
    fst (TasksService.findAll filterDto caller s) = Return (RPage listing)
    /\ total (meta listing)
       = Z.of_nat (length (List.filter (TasksService.whereClause filterDto caller) (tasks s)))
    /\ page (meta listing) = f_page filterDto
    /\ limit (meta listing) = f_limit filterDto
    /\ (forall n, totalPages (meta listing) <= n
                  <-> total (meta listing) <= n * limit (meta listing))
    /\ hasNextPage (meta listing) = (page (meta listing) <? totalPages (meta listing))
    /\ hasPreviousPage (meta listing) = (1 <? page (meta listing))
    /\ (total (meta listing) = 25 -> f_page filterDto = 3 -> f_limit filterDto = 10 ->
        meta listing
        = {| total := 25; page := 3; limit := 10; totalPages := 3;
             hasNextPage := false; hasPreviousPage := true |}).
Proof.
  intros Hlimit Hmiss. rewrite findAll_miss by assumption.
  eexists. split; [reflexivity|].
  unfold TasksService.getManyAndCount, TasksService.pageOf. cbn [meta total page limit
    totalPages hasNextPage hasPreviousPage fst snd].
  repeat split; try reflexivity.
  - apply ceilDiv_least; lia.
  - apply ceilDiv_least; lia.
  - intros Htotal Hpage Hlim. rewrite Htotal, Hpage, Hlim. reflexivity.
Qed.

End PageMetaProperties.

Lemma findAll_page_meta_witness :
  exists listing,
    fst (@TasksService.findAll Sample.externals Sample.thirdPage Sample.alice Sample.busy)
    = Return (RPage listing)
    /\ meta listing
       = {| total := 25; page := 3; limit := 10; totalPages := 3;
            hasNextPage := false; hasPreviousPage := true |}.
Proof.
  destruct (@findAll_page_meta Sample.externals Sample.thirdPage Sample.alice Sample.busy)
    as (listing & Hrun & Htotal & _ & _ & _ & _ & _ & Hexample).
  - simpl. lia.
  - vm_compute. reflexivity.
  - exists listing. split; [exact Hrun|].
    apply Hexample; [|reflexivity|reflexivity].
    rewrite Htotal. vm_compute. reflexivity.
Defined.

(** ** The [WHERE] clause of the listing *)


Lemma like_percent_unfold (p s : list ascii) :
  Sql.like ("%"%char :: p) s
  = (Sql.like p s || match s with [] => false | _ :: s' => Sql.like ("%"%char :: p) s' end)%bool.
Proof. destruct s; reflexivity. Qed.

Lemma like_percent_iff (p s : list ascii) :
  Sql.like ("%"%char :: p) s = true
  <-> exists before rest, s = (before ++ rest)%list /\ Sql.like p rest = true.
Proof.
  induction s as [|c s IH]; rewrite like_percent_unfold.
  - rewrite orb_false_r. split.
    + intros Hp. now exists [], [].
    + intros (before & rest & Heq & Hp).
      symmetry in Heq. apply app_eq_nil in Heq as [_ ->]. assumption.
  - rewrite orb_true_iff, IH. split.
    + intros [Hp|(before & rest & -> & Hp)].
      * now exists [], (c :: s).
      * now exists (c :: before), rest.
    + intros (before & rest & Heq & Hp). destruct before as [|b before].
      * left. simpl in Heq. now subst.
      * right. simpl in Heq. injection Heq as _ ->. now exists before, rest.
Qed.

Lemma like_percent_only (s : list ascii) : Sql.like ["%"%char] s = true.
Proof. apply like_percent_iff. exists s, []. split; [now rewrite app_nil_r|reflexivity]. Qed.

Lemma like_any_run (s : list ascii) : Sql.like ["%"; "%"; "%"]%char s = true.
Proof.
  apply like_percent_iff. exists s, []. split; [now rewrite app_nil_r|reflexivity].
Qed.

Lemma like_any_character (s : list ascii) :
  s <> [] -> Sql.like ["%"; "_"; "%"]%char s = true.
Proof.
  intros Hne. apply like_percent_iff. exists [], s. split; [reflexivity|].
  destruct s as [|c s]; [contradiction|].
  change (Sql.like ["%"%char] s = true). apply like_percent_only.
Qed.

(** ** Ordering and slicing *)

Lemma insertRow_In (leb : Task -> Task -> bool) (x y : Task) (rows : list Task) :
  In y (Sql.insertRow leb x rows) <-> y = x \/ In y rows.
Proof.
  induction rows as [|r rows IH]; simpl.
  - intuition.
  - destruct (leb x r); simpl; [intuition|]. rewrite IH. intuition.
Qed.

Lemma orderBy_In (sortBy : SortField) (sortOrder : SortOrder) (rows : list Task) (y : Task) :
  In y (Sql.orderBy sortBy sortOrder rows) <-> In y rows.
Proof.
  unfold Sql.orderBy. induction rows as [|r rows IH]; simpl; [reflexivity|].
  rewrite insertRow_In, IH. intuition.
Qed.

Lemma insertRow_length (leb : Task -> Task -> bool) (x : Task) (rows : list Task) :
  length (Sql.insertRow leb x rows) = S (length rows).
Proof.
  induction rows as [|r rows IH]; simpl; [reflexivity|].
  destruct (leb x r); simpl; [reflexivity|now rewrite IH].
Qed.

Lemma orderBy_length (sortBy : SortField) (sortOrder : SortOrder) (rows : list Task) :
  length (Sql.orderBy sortBy sortOrder rows) = length rows.
Proof.
  unfold Sql.orderBy. induction rows as [|r rows IH]; simpl; [reflexivity|].
  now rewrite insertRow_length, IH.
Qed.

Lemma skipTake_In (skip take : Z) (rows : list Task) (y : Task) :
  In y (Sql.skipTake skip take rows) -> In y rows.
Proof.
  unfold Sql.skipTake. intros Hin.
  rewrite <- (firstn_skipn (Z.to_nat skip) rows). apply in_or_app. right.
  rewrite <- (firstn_skipn (Z.to_nat take) (skipn (Z.to_nat skip) rows)).
  apply in_or_app. now left.
Qed.

Lemma skipTake_first_page (take : Z) (rows : list Task) :
  Z.of_nat (length rows) <= take -> Sql.skipTake 0 take rows = rows.
Proof.
  intros Hfit. unfold Sql.skipTake. simpl. apply firstn_all2. lia.
Qed.

(** C7 (the code diverges from the claim): the search text is pasted
    between two [%] and used as an [ILIKE] pattern without escaping, so
    its own [%] and [_] are wildcards and not characters to be found.
    With the search text [%] the search condition holds for every row:
    the [WHERE] clause accepts exactly the rows it accepts without a
    search text.  With the search text [_] it holds for every row whose
    title is not empty.  Neither depends on the row holding a percent
    sign or an underscore. *)
Theorem search_wildcards_are_not_literal (filterDto : FilterTaskDto) (caller : User)
    (task : Task) :
  (f_search filterDto = Some "%" ->
   TasksService.whereClause filterDto caller task
   = TasksService.whereClause (Reference.withoutSearch filterDto) caller task)
  /\ (f_search filterDto = Some "_" -> task_title task <> "" ->
      TasksService.whereClause filterDto caller task
      = TasksService.whereClause (Reference.withoutSearch filterDto) caller task).
Proof.
  unfold TasksService.whereClause, Reference.withoutSearch. cbn [f_status f_priority f_search].
  split.
  - intros ->. cbn [TasksService.truthy String.eqb negb].
    unfold Sql.ilike at 1.
    change (Sql.lower (list_ascii_of_string ("%" +:+ "%" +:+ "%")))
      with ["%"; "%"; "%"]%char.
    now rewrite like_any_run.
  - intros -> Htitle. cbn [TasksService.truthy String.eqb negb].
    unfold Sql.ilike at 1.
    change (Sql.lower (list_ascii_of_string ("%" +:+ "_" +:+ "%")))
      with ["%"; "_"; "%"]%char.
    rewrite like_any_character; [reflexivity|].
    destruct (task_title task) as [|c title]; [contradiction|discriminate].
Qed.

Lemma search_wildcards_are_not_literal_witness :
  TasksService.whereClause Sample.percentSearch Sample.alice Sample.groceries = true
  /\ fst (TasksService.getManyAndCount Sample.percentSearch Sample.alice (tasks Sample.db))
     = [Sample.groceries; Sample.report]
  /\ ~ In "%"%char (list_ascii_of_string (task_title Sample.groceries))
  /\ task_description Sample.groceries = None.
Proof.
  split; [|split; [|split]].
  - rewrite (proj1 (search_wildcards_are_not_literal Sample.percentSearch Sample.alice
                      Sample.groceries) eq_refl).
    reflexivity.
  - reflexivity.
  - vm_compute. intuition discriminate.
  - reflexivity.
Defined.

(** A search text with a wildcard inside: the text [100%] finds a done
    task of the caller titled "Budget of 1000 units", which has no
    description and no percent sign in its title. *)
Example search_100_percent_finds_1000 :
  TasksService.whereClause Sample.donePercent Sample.alice Sample.budget = true
  /\ TasksService.getManyAndCount Sample.donePercent Sample.alice [Sample.budget]
     = ([Sample.budget], 1)
  /\ ~ In "%"%char (list_ascii_of_string (task_title Sample.budget))
  /\ task_description Sample.budget = None.
Proof.
  split; [reflexivity|]. split; [reflexivity|]. split; [|reflexivity].
  vm_compute. intuition discriminate.
Qed.

(** * Further properties of the services *)

(** ** Registration, login and token validation *)

Lemma find_app_none {A} (f : A -> bool) (l l' : list A) :
  List.find f l = None -> List.find f (l ++ l') = List.find f l'.
Proof.
  induction l as [|a l IH]; simpl; [reflexivity|].
  destruct (f a); [discriminate|]. exact IH.
Qed.

Lemma find_app_some {A} (f : A -> bool) (l l' : list A) (x : A) :
  List.find f l = Some x -> List.find f (l ++ l') = Some x.
Proof.
  induction l as [|a l IH]; simpl; [discriminate|].
  destruct (f a); [now intros|]. exact IH.
Qed.

Section SessionProperties.
Context `{Externals}.




End SessionProperties.

(** [JwtStrategy.validate], for the payload of a verified token: it hands
    back the stored user whose id is the subject when that user is
    active; it throws Unauthorized ("User not found or inactive") when
    that user is inactive; and when no user has the id it throws the
    NotFoundException of the user lookup, not Unauthorized.  The state is
    not changed. *)
Theorem jwt_validate_outcomes (payload : JwtPayload) (s : State) :
  ((forall u, In u (users s) -> user_id u <> sub payload) ->
   JwtStrategy.validate payload s
   = (Throw (NotFoundException ("User with ID " +:+ sub payload +:+ " not found")), s))
  /\ (forall u,
        List.find (fun u => String.eqb (user_id u) (sub payload)) (users s) = Some u ->
        JwtStrategy.validate payload s
        = if user_isActive u then (Return u, s)
          else (Throw (UnauthorizedException "User not found or inactive"), s)).
Proof.
  split.
  - intros Hnone. unfold JwtStrategy.validate, AuthService.validateUser, bind.
    now rewrite users_findOne_missing.
  - intros u Hfind.
    unfold JwtStrategy.validate, AuthService.validateUser, UsersService.findOne. run.
    rewrite Hfind. now destruct (user_isActive u).
Qed.



Lemma jwt_validate_outcomes_witness :
  JwtStrategy.validate {| sub := "u-404"; jwt_email := "ghost@example.com" |} Sample.db
  = (Throw (NotFoundException "User with ID u-404 not found"), Sample.db)
  /\ JwtStrategy.validate {| sub := "u-carol"; jwt_email := "carol@example.com" |} Sample.db
     = (Throw (UnauthorizedException "User not found or inactive"), Sample.db)
  /\ JwtStrategy.validate {| sub := "u-alice"; jwt_email := "alice@example.com" |} Sample.db
     = (Return Sample.alice, Sample.db).
Proof.
  split; [|split].
  - apply (jwt_validate_outcomes {| sub := "u-404"; jwt_email := "ghost@example.com" |}
             Sample.db).
    simpl. intros u [<-|[<-|[<-|[<-|[]]]]]; discriminate.
  - apply (proj2 (jwt_validate_outcomes
                    {| sub := "u-carol"; jwt_email := "carol@example.com" |} Sample.db)
             Sample.carol eq_refl).
  - apply (proj2 (jwt_validate_outcomes
                    {| sub := "u-alice"; jwt_email := "alice@example.com" |} Sample.db)
             Sample.alice eq_refl).
Defined.

(** ** User administration *)

Lemma roleIsAdmin_true (r : UserRole) : UsersService.roleIsAdmin r = true <-> r = ADMIN.
Proof. destruct r; simpl; split; congruence. Qed.

Lemma roleIsAdmin_false (r : UserRole) : UsersService.roleIsAdmin r = false <-> r <> ADMIN.
Proof. destruct r; simpl; split; congruence. Qed.

Lemma filter_keeps_all {A} (f : A -> bool) (l : list A) :
  (forall x, In x l -> f x = true) -> List.filter f l = l.
Proof.
  induction l as [|a l IH]; simpl; intros Hall; [reflexivity|].
  rewrite (Hall a (or_introl eq_refl)). f_equal. apply IH. intros x Hx. apply Hall. now right.
Qed.

Lemma filter_length_zero {A} (f : A -> bool) (l : list A) :
  (forall x, In x l -> f x = false) -> length (List.filter f l) = 0%nat.
Proof.
  induction l as [|a l IH]; simpl; intros Hall; [reflexivity|].
  rewrite (Hall a (or_introl eq_refl)). apply IH. intros x Hx. apply Hall. now right.
Qed.

Lemma filter_length_pos {A} (f : A -> bool) (l : list A) (x : A) :
  In x l -> f x = true -> length (List.filter f l) <> 0%nat.
Proof.
  intros Hin Hf Hzero.
  assert (Hx : In x (List.filter f l)) by (apply filter_In; auto).
  destruct (List.filter f l); [contradiction|discriminate].
Qed.

(** [hardDelete]: a caller who is not an admin gets Forbidden and nothing
    changes.  For an admin, an id that no user row carries gives NotFound
    and leaves the user table as it was; an id that a row carries gives
    success, after which the user table holds exactly the rows with
    another id, the task table exactly the tasks of another owner (the
    cascade), the lookup of the id fails with NotFound, and the cache is
    what it was before: no cached response is dropped. *)
Theorem hardDelete_outcomes (id : string) (currentUser : User) (s : State) :
  (user_role currentUser <> ADMIN ->
   UsersService.hardDelete id currentUser s
   = (Throw (ForbiddenException "Only admins can permanently delete users"), s))
  /\ (user_role currentUser = ADMIN ->
      (forall u, In u (users s) -> user_id u <> id) ->
      fst (UsersService.hardDelete id currentUser s)
      = Throw (NotFoundException ("User with ID " +:+ id +:+ " not found"))
      /\ users (snd (UsersService.hardDelete id currentUser s)) = users s)
  /\ (user_role currentUser = ADMIN ->
      (exists u, In u (users s) /\ user_id u = id) ->
      fst (UsersService.hardDelete id currentUser s) = Return tt
      /\ (forall u, In u (users (snd (UsersService.hardDelete id currentUser s)))
                    <-> In u (users s) /\ user_id u <> id)
      /\ (forall t, In t (tasks (snd (UsersService.hardDelete id currentUser s)))
                    <-> In t (tasks s) /\ task_userId t <> id)
      /\ cache (snd (UsersService.hardDelete id currentUser s)) = cache s
      /\ fst (UsersService.findOne id (snd (UsersService.hardDelete id currentUser s)))
         = Throw (NotFoundException ("User with ID " +:+ id +:+ " not found"))).
Proof.
  unfold UsersService.hardDelete. split; [|split].
  - intros Hrole. apply roleIsAdmin_false in Hrole. now rewrite Hrole.
  - intros Hrole Hnone. apply roleIsAdmin_true in Hrole. rewrite Hrole. run.
    rewrite filter_length_zero by (intros u Hu; apply eqb_false_of_neq; auto).
    simpl. split; [reflexivity|].
    apply filter_keeps_all. intros u Hu. apply negb_true_iff, eqb_false_of_neq. auto.
  - intros Hrole (target & Hin & Hid). apply roleIsAdmin_true in Hrole. rewrite Hrole. run.
    destruct (Nat.eqb _ 0) eqn:Haffected.
    { apply Nat.eqb_eq in Haffected.
      exfalso. revert Haffected. apply (filter_length_pos _ _ target Hin).
      rewrite Hid. apply String.eqb_refl. }
    simpl. split; [reflexivity|].
    assert (Husers : forall u,
              In u (List.filter (fun u => negb (String.eqb (user_id u) id)) (users s))
              <-> In u (users s) /\ user_id u <> id).
    { intros u. rewrite filter_In, negb_true_iff, String.eqb_neq. reflexivity. }
    split; [exact Husers|]. split.
    + intros t. rewrite filter_In, negb_true_iff, String.eqb_neq. reflexivity.
    + split; [reflexivity|].
      rewrite users_findOne_missing; [reflexivity|].
      cbn [users]. intros u Hu. now apply Husers in Hu.
Qed.

Lemma hardDelete_outcomes_witness :
  UsersService.hardDelete "u-alice" Sample.bob Sample.db
  = (Throw (ForbiddenException "Only admins can permanently delete users"), Sample.db)
  /\ fst (UsersService.hardDelete "u-404" Sample.root Sample.db)
     = Throw (NotFoundException "User with ID u-404 not found")
  /\ fst (UsersService.hardDelete "u-alice" Sample.root Sample.db) = Return tt
  /\ tasks (snd (UsersService.hardDelete "u-alice" Sample.root Sample.db)) = [Sample.audit].
Proof.
  split; [|split; [|split]].
  - apply (hardDelete_outcomes "u-alice" Sample.bob Sample.db). discriminate.
  - apply (proj1 (proj2 (hardDelete_outcomes "u-404" Sample.root Sample.db)) eq_refl).
    simpl. intros u [<-|[<-|[<-|[<-|[]]]]]; discriminate.
  - apply (proj2 (proj2 (hardDelete_outcomes "u-alice" Sample.root Sample.db)) eq_refl).
    exists Sample.alice. simpl. auto.
  - reflexivity.
Defined.

Lemma users_findOne_found (id : string) (s : State) (u : User) :
  List.find (fun u => String.eqb (user_id u) id) (users s) = Some u ->
  UsersService.findOne id s = (Return u, s).
Proof. intros Hfind. unfold UsersService.findOne. run. now rewrite Hfind. Qed.

Lemma saveUser_stored (user : User) (s : State) (stored : User) :
  List.find (fun u => String.eqb (user_id u) (user_id user)) (users s) = Some stored ->
  UsersService.saveUser user s
  = (Return user,
     {| users := List.map (fun u => if String.eqb (user_id u) (user_id user)
                                    then user else u) (users s);
        tasks := tasks s; cache := cache s; nextId := nextId s; now := now s |}).
Proof. intros Hfind. unfold UsersService.saveUser. now rewrite Hfind. Qed.

(** The row found for an id, after the rows with that id were rewritten. *)
Lemma find_id_after_rewrite (id : string) (new : User) (rows : list User) (stored : User) :
  user_id new = id ->
  List.find (fun u => String.eqb (user_id u) id) rows = Some stored ->
  List.find (fun u => String.eqb (user_id u) id)
    (List.map (fun u => if String.eqb (user_id u) id then new else u) rows)
  = Some new.
Proof.
  intros Hnew. induction rows as [|a rows IH]; simpl; [discriminate|].
  destruct (String.eqb (user_id a) id) eqn:Ha.
  - intros _. now rewrite Hnew, String.eqb_refl.
  - intros Hfind. rewrite Ha. now apply IH.
Qed.

(** The row found for an email, after the rows with an id were rewritten
    to a row that keeps the email, in a table with distinct emails. *)
Lemma find_email_after_rewrite (id : string) (new : User) (rows : list User) (stored : User) :
  user_email new = user_email stored ->
  List.NoDup (List.map user_email rows) ->
  List.find (fun u => String.eqb (user_id u) id) rows = Some stored ->
  List.find (fun u => String.eqb (user_email u) (user_email stored))
    (List.map (fun u => if String.eqb (user_id u) id then new else u) rows)
  = Some new.
Proof.
  intros Hnew. induction rows as [|a rows IH]; simpl; [discriminate|].
  intros Hunique. inversion Hunique as [|? ? Hfirst Hrest]; subst.
  destruct (String.eqb (user_id a) id) eqn:Ha.
  - intros _. now rewrite Hnew, String.eqb_refl.
  - intros Hfind. destruct (find_found _ _ _ Hfind) as [Hin _].
    assert (Hne : user_email a <> user_email stored).
    { intros Heq. apply Hfirst. rewrite Heq. now apply in_map. }
    rewrite (eqb_false_of_neq _ _ Hne). now apply IH.
Qed.

Section SoftDeleteProperties.
Context `{Externals}.

(** The soft delete: when an admin removes a stored user, the call
    succeeds; the user table keeps its size and the rows of the other
    users, no task is dropped and the cache is left alone; from then on a token of that user is rejected with
    Unauthorized ("User not found or inactive") and, the emails of the
    table being distinct, a login with the user's email is rejected with
    "Account is deactivated" whatever the password. *)
Theorem soft_delete_locks_the_account (id : string) (admin target : User) (s : State) :
  user_role admin = ADMIN ->
  List.NoDup (List.map user_email (users s)) ->
  List.find (fun u => String.eqb (user_id u) id) (users s) = Some target ->
  exists s',
    UsersService.remove id admin s = (Return tt, s')
    /\ length (users s') = length (users s)
    /\ (forall u, In u (users s) -> user_id u <> id -> In u (users s'))
    /\ tasks s' = tasks s
    /\ cache s' = cache s
    /\ (forall payload, sub payload = id ->
          JwtStrategy.validate payload s'
          = (Throw (UnauthorizedException "User not found or inactive"), s'))
    /\ (forall loginDto, login_email loginDto = user_email target ->
          AuthService.login loginDto s'
          = (Throw (UnauthorizedException "Account is deactivated"), s')).
Proof.
  intros Hadmin Hunique Hfind.
  destruct (find_found _ _ _ Hfind) as [Hin Hid]. apply String.eqb_eq in Hid.
  apply roleIsAdmin_true in Hadmin.
  eexists. split.
  { unfold UsersService.remove, bind. rewrite (users_findOne_found id s target Hfind).
    rewrite Hadmin. cbn [negb].
    rewrite (saveUser_stored (UsersService.deactivate target) s target)
      by (cbn [UsersService.deactivate user_id]; now rewrite Hid).
    reflexivity. }
  cbn [users tasks cache UsersService.deactivate user_id]. rewrite Hid.
  split; [|split; [|split; [reflexivity|split; [reflexivity|split]]]].
  - apply List.length_map.
  - intros u Hu Hne. apply in_map_iff. exists u.
    now rewrite (eqb_false_of_neq _ _ Hne).
  - intros payload Hsub.
    unfold JwtStrategy.validate, AuthService.validateUser, bind.
    rewrite Hsub.
    rewrite (users_findOne_found id _ (UsersService.deactivate target)).
    + reflexivity.
    + cbn [users]. apply (find_id_after_rewrite id _ _ target); [|assumption].
      cbn [UsersService.deactivate user_id]. assumption.
  - intros loginDto Hmail.
    unfold AuthService.login, UsersService.findByEmail. run. rewrite Hmail.
    rewrite (find_email_after_rewrite id _ _ target); try assumption; reflexivity.
Qed.

End SoftDeleteProperties.

Lemma soft_delete_locks_the_account_witness :
  exists s',
    UsersService.remove "u-bob" Sample.root Sample.db = (Return tt, s')
    /\ tasks s' = tasks Sample.db
    /\ JwtStrategy.validate {| sub := "u-bob"; jwt_email := "bob@example.com" |} s'
       = (Throw (UnauthorizedException "User not found or inactive"), s')
    /\ @AuthService.login Sample.externals
         {| login_email := "bob@example.com"; login_password := "Hunter22" |} s'
       = (Throw (UnauthorizedException "Account is deactivated"), s').
Proof.
  destruct (@soft_delete_locks_the_account Sample.externals "u-bob" Sample.root Sample.bob
              Sample.db) as (s' & Hrun & _ & _ & Htasks & _ & Htoken & Hlogin).
  - reflexivity.
  - simpl. repeat constructor; simpl; intuition discriminate.
  - reflexivity.
  - exists s'. split; [exact Hrun|]. split; [exact Htasks|]. split.
    + now apply Htoken.
    + now apply Hlogin.
Defined.

(** A row of a table whose keys are distinct is the row found for its
    key. *)
Lemma find_by_unique_id (id : string) (rows : list User) (stored u : User) :
  List.NoDup (List.map user_id rows) ->
  List.find (fun u => String.eqb (user_id u) id) rows = Some stored ->
  In u rows -> user_id u = id -> u = stored.
Proof.
  induction rows as [|a rows IH]; simpl; [discriminate|].
  intros Hunique Hfind Hu Hid. inversion Hunique as [|? ? Hfirst Hrest]; subst.
  destruct (String.eqb (user_id a) (user_id u)) eqn:Ha.
  - injection Hfind as <-. destruct Hu as [Hu|Hu]; [now symmetry|].
    apply String.eqb_eq in Ha. exfalso. apply Hfirst. rewrite Ha. now apply in_map.
  - destruct Hu as [->|Hu]; [now rewrite String.eqb_refl in Ha|]. now apply IH.
Qed.

(** What [update] does once its two checks have passed. *)
Lemma users_update_allowed (id : string) (updateUserDto : UpdateUserDto)
    (currentUser stored : User) (s : State) :
  List.find (fun u => String.eqb (user_id u) id) (users s) = Some stored ->
  user_id currentUser = id \/ user_role currentUser = ADMIN ->
  uu_role updateUserDto = None \/ user_role currentUser = ADMIN ->
  UsersService.update id updateUserDto currentUser s
  = (Return (UsersService.assign stored updateUserDto),
     {| users := List.map (fun u => if String.eqb (user_id u) id
                                    then UsersService.assign stored updateUserDto else u)
                          (users s);
        tasks := tasks s; cache := cache s; nextId := nextId s; now := now s |}).
Proof.
  intros Hfind Hself Hrole.
  destruct (find_found _ _ _ Hfind) as [_ Hid]. apply String.eqb_eq in Hid.
  unfold UsersService.update, bind. rewrite (users_findOne_found id s stored Hfind).
  assert (Hfirst : negb (String.eqb (user_id currentUser) id)
                   && negb (UsersService.roleIsAdmin (user_role currentUser)) = false).
  { destruct Hself as [->|Hadmin].
    - now rewrite String.eqb_refl.
    - apply roleIsAdmin_true in Hadmin. rewrite Hadmin. apply andb_false_r. }
  assert (Hsecond : bool_decide (is_Some (uu_role updateUserDto))
                    && negb (UsersService.roleIsAdmin (user_role currentUser)) = false).
  { destruct Hrole as [->|Hadmin].
    - rewrite bool_decide_eq_false_2; [reflexivity|]. intros [r Hr]. discriminate.
    - apply roleIsAdmin_true in Hadmin. rewrite Hadmin. apply andb_false_r. }
  rewrite Hfirst, Hsecond.
  rewrite (saveUser_stored _ s stored)
    by (cbn [UsersService.assign user_id]; now rewrite Hid).
  cbn [UsersService.assign user_id]. now rewrite Hid.
Qed.

(** A caller who is not an admin cannot change a role, nor another
    user's row: whatever the id and the DTO, after [update] by such a
    caller every row of the user table has the role it had, in the same
    order, and the rows of the other users are still there.  The keys of
    the table are distinct. *)
Theorem update_by_non_admin_keeps_roles (id : string) (updateUserDto : UpdateUserDto)
    (currentUser : User) (s : State) :
  user_role currentUser <> ADMIN ->
  List.NoDup (List.map user_id (users s)) ->
  List.map user_role (users (snd (UsersService.update id updateUserDto currentUser s)))
  = List.map user_role (users s)
  /\ (forall u, In u (users s) -> user_id u <> user_id currentUser ->
        In u (users (snd (UsersService.update id updateUserDto currentUser s)))).
Proof.
  intros Hrole Hunique. pose proof Hrole as Hnot. apply roleIsAdmin_false in Hnot.
  destruct (List.find (fun u => String.eqb (user_id u) id) (users s)) as [stored|] eqn:Hfind.
  - destruct (String.eqb (user_id currentUser) id) eqn:Hself.
    + apply String.eqb_eq in Hself.
      destruct (uu_role updateUserDto) as [r|] eqn:Hdto.
      * unfold UsersService.update, bind. rewrite (users_findOne_found id s stored Hfind).
        rewrite Hself, String.eqb_refl, Hdto, Hnot. cbn [negb andb].
        rewrite bool_decide_eq_true_2 by (now exists r). simpl. auto.
      * rewrite (users_update_allowed id updateUserDto currentUser stored s Hfind);
          auto.
        cbn [snd users]. split.
        -- rewrite List.map_map. apply List.map_ext_in. intros u Hu.
           destruct (String.eqb (user_id u) id) eqn:Hu_id; [|reflexivity].
           apply String.eqb_eq in Hu_id.
           rewrite (find_by_unique_id id (users s) stored u Hunique Hfind Hu Hu_id).
           cbn [UsersService.assign user_role]. now rewrite Hdto.
        -- intros u Hu Hne. apply in_map_iff. exists u. split; [|assumption].
           rewrite <- Hself. now rewrite (eqb_false_of_neq _ _ Hne).
    + unfold UsersService.update, bind. rewrite (users_findOne_found id s stored Hfind).
      rewrite Hself, Hnot. simpl. auto.
  - unfold UsersService.update, UsersService.findOne. run. rewrite Hfind. simpl. auto.
Qed.

Lemma update_by_non_admin_keeps_roles_witness :
  List.map user_role
    (users (snd (UsersService.update "u-alice"
                   {| uu_firstName := Some "Alicia"; uu_lastName := None;
                      uu_role := Some ADMIN; uu_isActive := None |}
                   Sample.alice Sample.db)))
  = [USER; USER; ADMIN; USER].
Proof.
  apply (update_by_non_admin_keeps_roles "u-alice"
           {| uu_firstName := Some "Alicia"; uu_lastName := None;
              uu_role := Some ADMIN; uu_isActive := None |} Sample.alice Sample.db).
  - discriminate.
  - simpl. repeat constructor; simpl; intuition discriminate.
Defined.

(** What a completed [update] leaves: when [update] returns a user for
    a stored id, the caller was that user or an admin, and a role was
    sent only by an admin; the returned row keeps the id, the email and
    the password hash of the stored row; each of first name, last name,
    role and active flag is the value the DTO holds, or the stored value
    where the DTO holds none; a lookup of the id then finds the returned
    row; tasks and cache are left alone. *)
Theorem update_profile_round_trip (id : string) (updateUserDto : UpdateUserDto)
    (currentUser stored updated : User) (s s' : State) :
  List.find (fun u => String.eqb (user_id u) id) (users s) = Some stored ->
  UsersService.update id updateUserDto currentUser s = (Return updated, s') ->
  (user_id currentUser = id \/ user_role currentUser = ADMIN)
  /\ (uu_role updateUserDto = None \/ user_role currentUser = ADMIN)
  /\ UsersService.findOne id s' = (Return updated, s')
  /\ user_id updated = id
  /\ user_email updated = user_email stored
  /\ user_password updated = user_password stored
  /\ user_firstName updated = default (user_firstName stored) (uu_firstName updateUserDto)
  /\ user_lastName updated = default (user_lastName stored) (uu_lastName updateUserDto)
  /\ user_role updated = default (user_role stored) (uu_role updateUserDto)
  /\ user_isActive updated = default (user_isActive stored) (uu_isActive updateUserDto)
  /\ tasks s' = tasks s
  /\ cache s' = cache s.
Proof.
  intros Hfind Hrun.
  destruct (find_found _ _ _ Hfind) as [_ Hid]. apply String.eqb_eq in Hid.
  assert (Hself : user_id currentUser = id \/ user_role currentUser = ADMIN).
  { destruct (String.eqb (user_id currentUser) id) eqn:Heq;
      [left; now apply String.eqb_eq|].
    destruct (UsersService.roleIsAdmin (user_role currentUser)) eqn:Hadmin;
      [right; now apply roleIsAdmin_true|].
    exfalso. revert Hrun. unfold UsersService.update, bind.
    rewrite (users_findOne_found id s stored Hfind), Heq, Hadmin. discriminate. }
  assert (Hrole : uu_role updateUserDto = None \/ user_role currentUser = ADMIN).
  { destruct (uu_role updateUserDto) as [r|] eqn:Hdto; [|now left].
    destruct (UsersService.roleIsAdmin (user_role currentUser)) eqn:Hadmin;
      [right; now apply roleIsAdmin_true|].
    exfalso. revert Hrun. unfold UsersService.update, bind.
    rewrite (users_findOne_found id s stored Hfind), Hdto, Hadmin.
    rewrite (bool_decide_eq_true_2 (is_Some (Some r))) by (now exists r).
    destruct (negb (String.eqb (user_id currentUser) id)); discriminate. }
  rewrite (users_update_allowed id updateUserDto currentUser stored s Hfind Hself Hrole)
    in Hrun.
  injection Hrun as <- <-.
  split; [assumption|]. split; [assumption|]. split.
  - apply users_findOne_found. cbn [users].
    now apply (find_id_after_rewrite id _ _ stored).
  - cbn [UsersService.assign user_id user_email user_password user_firstName
         user_lastName user_role user_isActive tasks cache].
    repeat split; try reflexivity. assumption.
Qed.

Lemma update_profile_round_trip_witness :
  let patch := {| uu_firstName := Some "Alicia"; uu_lastName := None;
                  uu_role := None; uu_isActive := None |} in
  let updated := UsersService.assign Sample.alice patch in
  let s' := snd (UsersService.update "u-alice" patch Sample.alice Sample.db) in
  UsersService.findOne "u-alice" s' = (Return updated, s')
  /\ user_firstName updated = "Alicia"
  /\ user_lastName updated = "Archer".
Proof.
  intros patch updated s'.
  destruct (update_profile_round_trip "u-alice" patch Sample.alice Sample.alice updated
              Sample.db s' eq_refl eq_refl)
    as (_ & _ & Hfind & _ & _ & _ & Hfirst & Hlast & _).
  repeat split; assumption.
Defined.

(** A caller who is not an admin cannot probe or change the user table
    through [remove]: the call fails with NotFound when no row has the
    id and with Forbidden when one has, and the state is what it was. *)
Theorem users_remove_by_non_admin (id : string) (currentUser : User) (s : State) :
  user_role currentUser <> ADMIN ->
  snd (UsersService.remove id currentUser s) = s
  /\ ((forall u, In u (users s) -> user_id u <> id) ->
      fst (UsersService.remove id currentUser s)
      = Throw (NotFoundException ("User with ID " +:+ id +:+ " not found")))
  /\ ((exists u, In u (users s) /\ user_id u = id) ->
      fst (UsersService.remove id currentUser s)
      = Throw (ForbiddenException "Only admins can delete users")).
Proof.
  intros Hrole. apply roleIsAdmin_false in Hrole.
  unfold UsersService.remove, bind.
  destruct (List.find (fun u => String.eqb (user_id u) id) (users s)) as [stored|] eqn:Hfind.
  - rewrite (users_findOne_found id s stored Hfind), Hrole. simpl.
    split; [reflexivity|]. split; [|reflexivity].
    intros Hnone. destruct (find_found _ _ _ Hfind) as [Hin Hid].
    apply String.eqb_eq in Hid. now destruct (Hnone stored Hin).
  - assert (Hnone : forall u, In u (users s) -> user_id u <> id).
    { intros u Hu Heq. apply (find_none _ _ Hfind) in Hu.
      apply String.eqb_neq in Hu. contradiction. }
    rewrite (users_findOne_missing id s Hnone). simpl.
    split; [reflexivity|]. split; [reflexivity|].
    intros (u & Hu & Hid). now destruct (Hnone u Hu).
Qed.

Lemma users_remove_by_non_admin_witness :
  UsersService.remove "u-bob" Sample.alice Sample.db
  = (Throw (ForbiddenException "Only admins can delete users"), Sample.db)
  /\ UsersService.remove "u-404" Sample.alice Sample.db
     = (Throw (NotFoundException "User with ID u-404 not found"), Sample.db).
Proof.
  destruct (users_remove_by_non_admin "u-bob" Sample.alice Sample.db)
    as (Hstate & _ & Hforbidden); [discriminate|].
  destruct (users_remove_by_non_admin "u-404" Sample.alice Sample.db)
    as (Hstate' & Hmissing & _); [discriminate|].
  split.
  - rewrite (surjective_pairing (UsersService.remove "u-bob" Sample.alice Sample.db)).
    rewrite Hstate, Hforbidden; [reflexivity|].
    exists Sample.bob. simpl. auto.
  - rewrite (surjective_pairing (UsersService.remove "u-404" Sample.alice Sample.db)).
    rewrite Hstate', Hmissing; [reflexivity|].
    simpl. intros u [<-|[<-|[<-|[<-|[]]]]]; discriminate.
Defined.

(** ** Task writes *)

Lemma existsb_true_of {A} (f : A -> bool) (l : list A) (x : A) :
  In x l -> f x = true -> existsb f l = true.
Proof. intros Hin Hf. apply existsb_exists. now exists x. Qed.

(** [findOne] for the owner of the row or an admin. *)
Lemma tasks_findOne_allowed (id : string) (caller : User) (s : State) (task : Task) :
  List.find (fun t => String.eqb (task_id t) id) (tasks s) = Some task ->
  task_userId task = user_id caller \/ user_role caller = ADMIN ->
  TasksService.findOne id caller s = (Return task, s).
Proof.
  intros Hfind Hallowed. rewrite (tasks_findOne_found id caller s task Hfind).
  destruct Hallowed as [Howner|Hrole].
  - now rewrite Howner, String.eqb_refl.
  - rewrite (bool_decide_eq_true_2 _ Hrole). simpl. now rewrite andb_false_r.
Qed.

Section TaskWriteProperties.
Context `{Externals}.

(** What a completed [create] leaves, and that the task can be read
    back: when [create] returns a task, that task is the one row added
    to the task table, at its end; it is owned by the caller, carries
    the generated key, the submitted title, description and due date,
    the submitted status and priority or, where the DTO holds none,
    [TODO] and [MEDIUM], and the current time as both timestamps; and if
    no older row carries its key, [findOne] with that key, by the
    caller, returns it. *)
Theorem create_then_findOne (createTaskDto : CreateTaskDto) (caller : User) (s s' : State)
    (task : Task) :
  TasksService.create createTaskDto caller s = (Return task, s') ->
  tasks s' = (tasks s ++ [task])%list
  /\ task_id task = uuid (nextId s)
  /\ task_userId task = user_id caller
  /\ task_title task = ct_title createTaskDto
  /\ task_description task = ct_description createTaskDto
  /\ task_dueDate task = ct_dueDate createTaskDto
  /\ task_status task = default TODO (ct_status createTaskDto)
  /\ task_priority task = default MEDIUM (ct_priority createTaskDto)
  /\ task_createdAt task = now s
  /\ task_updatedAt task = now s
  /\ ((forall t, In t (tasks s) -> task_id t <> task_id task) ->
      TasksService.findOne (task_id task) caller s' = (Return task, s')).
Proof.
  unfold TasksService.create, TasksService.insertTask, TasksService.invalidateTasksCache,
    CacheManager.reset.
  unfold bind, ret, modify.
  destruct (negb (existsb (fun u => String.eqb (user_id u) (user_id caller)) (users s)));
    [discriminate|].
  intros [= <- <-].
  cbn [tasks task_userId task_title task_description task_dueDate task_status task_priority
       task_createdAt task_updatedAt task_id].
  repeat (split; [reflexivity|]).
  intros Hfresh. apply tasks_findOne_allowed; [|now left].
  cbn [tasks]. rewrite find_app_none.
  - simpl. now rewrite String.eqb_refl.
  - apply find_none_of. intros t Ht. apply eqb_false_of_neq. auto.
Qed.

End TaskWriteProperties.

Lemma create_then_findOne_witness :
  let created := @TasksService.create Sample.externals
                   {| ct_title := "Plan the offsite"; ct_description := None;
                      ct_status := None; ct_priority := Some HIGH; ct_dueDate := None |}
                   Sample.bob Sample.db in
  exists task,
    fst created = Return task
    /\ task_status task = TODO
    /\ task_priority task = HIGH
    /\ task_userId task = "u-bob"
    /\ TasksService.findOne (task_id task) Sample.bob (snd created)
       = (Return task, snd created).
Proof.
  intros created.
  destruct (fst created) as [task|e] eqn:Hrun; [|vm_compute in Hrun; discriminate].
  destruct (@create_then_findOne Sample.externals
              {| ct_title := "Plan the offsite"; ct_description := None;
                 ct_status := None; ct_priority := Some HIGH; ct_dueDate := None |}
              Sample.bob Sample.db (snd created) task)
    as (_ & Hkey & Howner & _ & _ & _ & Hstatus & Hpriority & _ & _ & Hread).
  - rewrite <- Hrun. apply surjective_pairing.
  - exists task. split; [reflexivity|]. repeat split; try assumption.
    apply Hread. rewrite Hkey. simpl.
    intros t [<-|[<-|[<-|[]]]]; discriminate.
Defined.

(** ** Task updates and removals *)

(** The row found for a task id, after the rows with that id were
    rewritten. *)
Lemma find_task_after_rewrite (id : string) (new : Task) (rows : list Task) (stored : Task) :
  task_id new = id ->
  List.find (fun t => String.eqb (task_id t) id) rows = Some stored ->
  List.find (fun t => String.eqb (task_id t) id)
    (List.map (fun t => if String.eqb (task_id t) id then new else t) rows)
  = Some new.
Proof.
  intros Hnew. induction rows as [|a rows IH]; simpl; [discriminate|].
  destruct (String.eqb (task_id a) id) eqn:Ha.
  - intros _. now rewrite Hnew, String.eqb_refl.
  - intros Hfind. rewrite Ha. now apply IH.
Qed.

(** The outcome of [update] once [findOne] has handed over the row. *)
Lemma tasks_update_allowed (id : string) (updateTaskDto : UpdateTaskDto) (caller : User)
    (s : State) (stored : Task) :
  List.find (fun t => String.eqb (task_id t) id) (tasks s) = Some stored ->
  task_userId stored = user_id caller \/ user_role caller = ADMIN ->
  TasksService.update id updateTaskDto caller s
  = if bool_decide (stored = TasksService.assign stored updateTaskDto)
    then (Return stored,
          {| users := users s; tasks := tasks s; cache := ∅;
             nextId := nextId s; now := now s |})
    else (Return (TasksService.touch (TasksService.assign stored updateTaskDto) (now s)),
          {| users := users s;
             tasks := List.map
                        (fun t => if String.eqb (task_id t) id
                                  then TasksService.touch
                                         (TasksService.assign stored updateTaskDto) (now s)
                                  else t) (tasks s);
             cache := ∅; nextId := nextId s; now := now s |}).
Proof.
  intros Hfind Hallowed.
  destruct (find_found _ _ _ Hfind) as [_ Hid]. apply String.eqb_eq in Hid.
  unfold TasksService.update, bind.
  rewrite (tasks_findOne_allowed id caller s stored Hfind Hallowed).
  unfold TasksService.saveTask, TasksService.invalidateTasksCache, CacheManager.reset,
    modify, ret.
  cbn [TasksService.assign task_id]. rewrite Hid, Hfind.
  destruct (bool_decide (stored = TasksService.assign stored updateTaskDto)) eqn:Hsame.
  - apply bool_decide_eq_true_1 in Hsame. now rewrite <- Hsame.
  - reflexivity.
Qed.

(** What a completed [update] leaves: when [update] returns a task for
    a stored id, the caller owns the stored task or is an admin; the
    returned task keeps the id, the owner and the creation time of the
    stored one; title, status and priority are the values the DTO holds,
    or the stored ones where the DTO holds none; a description or a due
    date that the DTO holds is the one of the returned task; when a
    value of the DTO differs from the stored one, [updatedAt] is the
    current time; and a following [findOne] of the id by the same caller
    returns exactly the returned task.  The user table is untouched. *)
Theorem update_applies_provided_fields (id : string) (updateTaskDto : UpdateTaskDto)
    (caller : User) (s s' : State) (stored updated : Task) :
  List.find (fun t => String.eqb (task_id t) id) (tasks s) = Some stored ->
  TasksService.update id updateTaskDto caller s = (Return updated, s') ->
  (task_userId stored = user_id caller \/ user_role caller = ADMIN)
  /\ task_id updated = id
  /\ task_userId updated = task_userId stored
  /\ task_createdAt updated = task_createdAt stored
  /\ task_title updated = default (task_title stored) (ut_title updateTaskDto)
  /\ task_status updated = default (task_status stored) (ut_status updateTaskDto)
  /\ task_priority updated = default (task_priority stored) (ut_priority updateTaskDto)
  /\ (forall description, ut_description updateTaskDto = Some description ->
        task_description updated = Some description)
  /\ (forall dueDate, ut_dueDate updateTaskDto = Some dueDate ->
        task_dueDate updated = Some dueDate)
  /\ (TasksService.assign stored updateTaskDto <> stored -> task_updatedAt updated = now s)
  /\ TasksService.findOne id caller s' = (Return updated, s')
  /\ users s' = users s.
Proof.
  intros Hfind Hrun.
  destruct (find_found _ _ _ Hfind) as [_ Hid]. apply String.eqb_eq in Hid.
  assert (Hallowed : task_userId stored = user_id caller \/ user_role caller = ADMIN).
  { destruct (String.eqb (task_userId stored) (user_id caller)) eqn:Howner;
      [left; now apply String.eqb_eq|].
    destruct (bool_decide (user_role caller = ADMIN)) eqn:Hrole;
      [right; now apply bool_decide_eq_true_1 in Hrole|].
    exfalso. revert Hrun. unfold TasksService.update, bind.
    rewrite (tasks_findOne_found id caller s stored Hfind), Howner, Hrole. discriminate. }
  split; [assumption|].
  rewrite (tasks_update_allowed id updateTaskDto caller s stored Hfind Hallowed) in Hrun.
  destruct (bool_decide (stored = TasksService.assign stored updateTaskDto)) eqn:Hsame.
  - apply bool_decide_eq_true_1 in Hsame. injection Hrun as <- <-.
    split; [assumption|]. do 2 (split; [reflexivity|]).
    split; [now rewrite Hsame at 1|].
    split; [now rewrite Hsame at 1|].
    split; [now rewrite Hsame at 1|].
    split; [intros d Hd; rewrite Hsame at 1;
            cbn [TasksService.assign task_description]; now rewrite Hd|].
    split; [intros d Hd; rewrite Hsame at 1;
            cbn [TasksService.assign task_dueDate]; now rewrite Hd|].
    split; [intros Hdiff; now destruct Hdiff|].
    split; [|reflexivity]. now apply tasks_findOne_allowed.
  - injection Hrun as <- <-.
    cbn [TasksService.touch TasksService.assign task_id task_userId task_createdAt task_title
         task_description task_status task_priority task_dueDate task_updatedAt users].
    split; [assumption|]. do 5 (split; [reflexivity|]).
    split; [intros d Hd; now rewrite Hd|].
    split; [intros d Hd; now rewrite Hd|].
    split; [reflexivity|]. split; [|reflexivity].
    apply tasks_findOne_allowed; [|assumption].
    cbn [tasks]. now apply (find_task_after_rewrite id _ _ stored).
Qed.

Lemma update_applies_provided_fields_witness :
  let patch := {| ut_title := None; ut_description := None; ut_status := Some IN_PROGRESS;
                  ut_priority := None; ut_dueDate := None |} in
  let run := TasksService.update "t-2" patch Sample.alice Sample.db in
  exists updated,
    fst run = Return updated
    /\ task_status updated = IN_PROGRESS
    /\ task_title updated = "Groceries"
    /\ task_updatedAt updated = 1000
    /\ TasksService.findOne "t-2" Sample.alice (snd run) = (Return updated, snd run).
Proof.
  intros patch run.
  destruct (fst run) as [updated|e] eqn:Hrun; [|vm_compute in Hrun; discriminate].
  destruct (update_applies_provided_fields "t-2" patch Sample.alice Sample.db (snd run)
              Sample.groceries updated eq_refl)
    as (_ & _ & _ & _ & Htitle & Hstatus & _ & _ & _ & Htime & Hread & _).
  - rewrite <- Hrun. apply surjective_pairing.
  - exists updated. split; [reflexivity|]. repeat split; try assumption.
    apply Htime. discriminate.
Defined.

(** A PATCH that provides no field still empties the cache: for the owner
    of the task or an admin, [update] with an empty DTO returns the
    stored task as it is and writes nothing to the task table, yet the
    cache store is empty afterwards. *)
Theorem update_without_fields_still_resets_cache (id : string) (caller : User) (s : State)
    (stored : Task) :
  List.find (fun t => String.eqb (task_id t) id) (tasks s) = Some stored ->
  task_userId stored = user_id caller \/ user_role caller = ADMIN ->
  TasksService.update id
    {| ut_title := None; ut_description := None; ut_status := None;
       ut_priority := None; ut_dueDate := None |} caller s
  = (Return stored,
     {| users := users s; tasks := tasks s; cache := ∅; nextId := nextId s; now := now s |}).
Proof.
  intros Hfind Hallowed.
  rewrite (tasks_update_allowed id _ caller s stored Hfind Hallowed).
  rewrite bool_decide_eq_true_2; [reflexivity|]. now destruct stored.
Qed.

Lemma update_without_fields_still_resets_cache_witness :
  let cached := snd (@TasksService.findAll Sample.externals Sample.defaults Sample.alice
                       Sample.db) in
  cache cached <> ∅
  /\ TasksService.update "t-2"
       {| ut_title := None; ut_description := None; ut_status := None;
          ut_priority := None; ut_dueDate := None |} Sample.alice cached
     = (Return Sample.groceries,
        {| users := users cached; tasks := tasks cached; cache := ∅;
           nextId := nextId cached; now := now cached |}).
Proof.
  intros cached. split.
  - intros Hempty.
    assert (Hlook : cache cached
                    !! @TasksService.cacheKey Sample.externals "u-alice" Sample.defaults
                    = None) by (rewrite Hempty; apply lookup_empty).
    vm_compute in Hlook. discriminate.
  - apply (update_without_fields_still_resets_cache "t-2" Sample.alice cached
             Sample.groceries); [reflexivity|left; reflexivity].
Defined.

(** [remove], for the owner of the task or an admin: the call succeeds;
    afterwards the task table holds exactly the rows with another id, so
    that [findOne] of the id fails with NotFound for every caller; the
    user table is untouched and the cache store is empty. *)
Theorem remove_then_findOne (id : string) (caller : User) (s : State) (stored : Task) :
  List.find (fun t => String.eqb (task_id t) id) (tasks s) = Some stored ->
  task_userId stored = user_id caller \/ user_role caller = ADMIN ->
  exists s',
    TasksService.remove id caller s = (Return tt, s')
    /\ (forall t, In t (tasks s') <-> In t (tasks s) /\ task_id t <> id)
    /\ (forall reader,
          TasksService.findOne id reader s'
          = (Throw (NotFoundException ("Task with ID " +:+ id +:+ " not found")), s'))
    /\ users s' = users s
    /\ cache s' = ∅.
Proof.
  intros Hfind Hallowed.
  destruct (find_found _ _ _ Hfind) as [_ Hid]. apply String.eqb_eq in Hid.
  unfold TasksService.remove, bind.
  rewrite (tasks_findOne_allowed id caller s stored Hfind Hallowed).
  unfold TasksService.removeTask, TasksService.invalidateTasksCache, CacheManager.reset,
    modify.
  rewrite Hid. eexists. split; [reflexivity|]. cbn [tasks users cache].
  assert (Hrows : forall t,
            In t (List.filter (fun t => negb (String.eqb (task_id t) id)) (tasks s))
            <-> In t (tasks s) /\ task_id t <> id).
  { intros t. rewrite filter_In, negb_true_iff, String.eqb_neq. reflexivity. }
  split; [exact Hrows|]. split; [|split; reflexivity].
  intros reader. apply tasks_findOne_missing. cbn [tasks].
  intros t Ht. now apply Hrows in Ht.
Qed.

Lemma remove_then_findOne_witness :
  exists s',
    TasksService.remove "t-3" Sample.root Sample.db = (Return tt, s')
    /\ TasksService.findOne "t-3" Sample.bob s'
       = (Throw (NotFoundException "Task with ID t-3 not found"), s')
    /\ cache s' = ∅.
Proof.
  destruct (remove_then_findOne "t-3" Sample.root Sample.db Sample.audit eq_refl
              (or_intror eq_refl)) as (s' & Hrun & _ & Hgone & _ & Hcache).
  exists s'. split; [exact Hrun|]. split; [apply Hgone|exact Hcache].
Defined.

(** A write that [findOne] refuses changes nothing, the cache included:
    when [findOne] throws for the id and the caller (NotFound, or
    Forbidden for a task of another user), [update], whatever the DTO,
    and [remove] throw the same exception and leave the state as it was
    before the call. *)
Theorem rejected_task_write_changes_nothing (id : string) (caller : User) (s : State)
    (e : Exception) :
  fst (TasksService.findOne id caller s) = Throw e ->
  (forall updateTaskDto,
     TasksService.update id updateTaskDto caller s = (Throw e, s))
  /\ TasksService.remove id caller s = (Throw e, s).
Proof.
  intros Hrefused.
  assert (Hread : TasksService.findOne id caller s = (Throw e, s)).
  { rewrite (surjective_pairing (TasksService.findOne id caller s)), Hrefused. f_equal.
    unfold TasksService.findOne. run.
    destruct (List.find _ (tasks s)) as [task|]; [|reflexivity].
    now destruct (negb _ && negb _). }
  split.
  - intros updateTaskDto. unfold TasksService.update, bind. now rewrite Hread.
  - unfold TasksService.remove, bind. now rewrite Hread.
Qed.

Lemma rejected_task_write_changes_nothing_witness :
  let cached := snd (@TasksService.findAll Sample.externals Sample.defaults Sample.bob
                       Sample.db) in
  TasksService.remove "t-1" Sample.bob cached
  = (Throw (ForbiddenException "You can only access your own tasks"), cached)
  /\ TasksService.update "t-404"
       {| ut_title := Some "Ghost"; ut_description := None; ut_status := None;
          ut_priority := None; ut_dueDate := None |} Sample.bob cached
     = (Throw (NotFoundException "Task with ID t-404 not found"), cached).
Proof.
  intros cached. split.
  - apply (rejected_task_write_changes_nothing "t-1" Sample.bob cached
             (ForbiddenException "You can only access your own tasks")).
    reflexivity.
  - apply (rejected_task_write_changes_nothing "t-404" Sample.bob cached
             (NotFoundException "Task with ID t-404 not found")).
    reflexivity.
Defined.

(** ** The page of a listing *)

Section PageProperties.
Context `{Externals}.

(** A listing never shows another user's task, whoever asks and whatever
    the search text: every row of a listing computed from the task table
    is a row of that table owned by the caller.  This holds for an admin
    too, and for a search text full of pattern characters. *)
Theorem findAll_shows_only_own_tasks (filterDto : FilterTaskDto) (caller : User) (s : State) :
  cache s !! TasksService.cacheKey (user_id caller) filterDto = None ->
  exists listing,
    fst (TasksService.findAll filterDto caller s) = Return (RPage listing)
    /\ (forall task, In task (data listing) ->
          In task (tasks s) /\ task_userId task = user_id caller).
Proof.
  intros Hmiss. rewrite findAll_miss by assumption.
  eexists. split; [reflexivity|].
  unfold TasksService.getManyAndCount, TasksService.pageOf. cbn [data fst].
  intros task Hin. apply skipTake_In, orderBy_In, filter_In in Hin as [Hrow Hwhere].
  split; [assumption|].
  unfold TasksService.whereClause in Hwhere.
  repeat (apply andb_true_iff in Hwhere as [Hwhere _]).
  now apply String.eqb_eq.
Qed.

Lemma skipTake_length (skip take : Z) (rows : list Task) :
  0 <= skip -> 0 <= take ->
  Z.of_nat (length (Sql.skipTake skip take rows))
  = Z.min take (Z.max 0 (Z.of_nat (length rows) - skip)).
Proof.
  intros Hskip Htake. unfold Sql.skipTake.
  rewrite List.length_firstn, List.length_skipn. lia.
Qed.

(** The size of a page and the next-page flag: for a listing computed
    from the task table with [page >= 1] and [limit >= 1], the page holds
    [min(limit, max(0, total - (page - 1) * limit))] rows, that is a full
    page while enough matching rows remain, then the remainder, then
    nothing; and [hasNextPage] is true exactly when matching rows remain
    after this page, that is when [page * limit < total]. *)
Theorem findAll_page_size (filterDto : FilterTaskDto) (caller : User) (s : State) :
  1 <= f_page filterDto -> 1 <= f_limit filterDto ->
  cache s !! TasksService.cacheKey (user_id caller) filterDto = None ->
  exists listing,
    fst (TasksService.findAll filterDto caller s) = Return (RPage listing)
    /\ Z.of_nat (length (data listing))
       = Z.min (f_limit filterDto)
               (Z.max 0 (total (meta listing) - (f_page filterDto - 1) * f_limit filterDto))
    /\ (hasNextPage (meta listing) = true
        <-> f_page filterDto * f_limit filterDto < total (meta listing)).
Proof.
  intros Hpage Hlimit Hmiss. rewrite findAll_miss by assumption.
  eexists. split; [reflexivity|].
  unfold TasksService.getManyAndCount, TasksService.pageOf.
  cbn [data meta total hasNextPage fst].
  split.
  - rewrite skipTake_length by nia. now rewrite orderBy_length.
  - rewrite Z.ltb_lt.
    pose proof (ceilDiv_least
                  (Z.of_nat (length (List.filter (TasksService.whereClause filterDto caller)
                                       (tasks s))))
                  (f_limit filterDto) ltac:(lia) (f_page filterDto)) as Hceil.
    lia.
Qed.

End PageProperties.

Lemma findAll_shows_only_own_tasks_witness :
  exists listing,
    fst (@TasksService.findAll Sample.externals
           {| f_status := None; f_priority := None; f_search := Some "%";
              f_page := 1; f_limit := 10; f_sortBy := SortCreatedAt; f_sortOrder := DESC |}
           Sample.root Sample.db) = Return (RPage listing)
    /\ data listing = [].
Proof.
  destruct (@findAll_shows_only_own_tasks Sample.externals
              {| f_status := None; f_priority := None; f_search := Some "%";
                 f_page := 1; f_limit := 10; f_sortBy := SortCreatedAt; f_sortOrder := DESC |}
              Sample.root Sample.db) as (listing & Hrun & Hown).
  - vm_compute. reflexivity.
  - exists listing. split; [exact Hrun|].
    destruct (data listing) as [|task rows]; [reflexivity|].
    destruct (Hown task (or_introl eq_refl)) as [Hrow Howner].
    simpl in Hrow. destruct Hrow as [<-|[<-|[<-|[]]]]; discriminate.
Defined.

Lemma findAll_page_size_witness :
  exists listing,
    fst (@TasksService.findAll Sample.externals Sample.thirdPage Sample.alice Sample.busy)
    = Return (RPage listing)
    /\ Z.of_nat (length (data listing))
       = Z.min 10 (Z.max 0 (total (meta listing) - (3 - 1) * 10))
    /\ (hasNextPage (meta listing) = true <-> 3 * 10 < total (meta listing)).
Proof.
  apply (@findAll_page_size Sample.externals Sample.thirdPage Sample.alice Sample.busy).
  - simpl. lia.
  - simpl. lia.
  - vm_compute. reflexivity.
Defined.

(** ** The order of a listing *)

Lemma nullsLastLeb_total (a b : option Z) :
  Sql.nullsLastLeb a b = false -> Sql.nullsLastLeb b a = true.
Proof.
  destruct a as [x|], b as [y|]; simpl; try congruence.
  rewrite Z.leb_gt, Z.leb_le. lia.
Qed.

Lemma nullsLastLeb_trans (a b c : option Z) :
  Sql.nullsLastLeb a b = true -> Sql.nullsLastLeb b c = true -> Sql.nullsLastLeb a c = true.
Proof.
  destruct a as [x|], b as [y|], c as [z|]; simpl; try congruence.
  rewrite !Z.leb_le. lia.
Qed.

Lemma columnLeb_total (sortBy : SortField) (a b : Task) :
  Sql.columnLeb sortBy a b = false -> Sql.columnLeb sortBy b a = true.
Proof.
  destruct sortBy; simpl; try apply nullsLastLeb_total;
    rewrite Z.leb_gt, Z.leb_le; lia.
Qed.

Lemma columnLeb_trans (sortBy : SortField) (a b c : Task) :
  Sql.columnLeb sortBy a b = true -> Sql.columnLeb sortBy b c = true ->
  Sql.columnLeb sortBy a c = true.
Proof.
  destruct sortBy; simpl; try apply nullsLastLeb_trans;
    rewrite !Z.leb_le; lia.
Qed.

Lemma rowLeb_total (sortBy : SortField) (sortOrder : SortOrder) (a b : Task) :
  Sql.rowLeb sortBy sortOrder a b = false -> Sql.rowLeb sortBy sortOrder b a = true.
Proof. destruct sortOrder; simpl; apply columnLeb_total. Qed.

Lemma rowLeb_trans (sortBy : SortField) (sortOrder : SortOrder) (a b c : Task) :
  Sql.rowLeb sortBy sortOrder a b = true -> Sql.rowLeb sortBy sortOrder b c = true ->
  Sql.rowLeb sortBy sortOrder a c = true.
Proof.
  destruct sortOrder; simpl; intros Hab Hbc;
    [apply (columnLeb_trans sortBy a b c)|apply (columnLeb_trans sortBy c b a)]; assumption.
Qed.

Lemma insertRow_sorted (leb : Task -> Task -> bool) (x : Task) (rows : list Task) :
  (forall a b, leb a b = false -> leb b a = true) ->
  Sorted (fun a b => leb a b = true) rows ->
  Sorted (fun a b => leb a b = true) (Sql.insertRow leb x rows).
Proof.
  intros Htotal. induction rows as [|y rows IH]; simpl; intros Hsorted.
  - repeat constructor.
  - destruct (leb x y) eqn:Hxy.
    + constructor; [assumption|]. now constructor.
    + inversion Hsorted as [|? ? Hrest Hhead]; subst.
      constructor; [now apply IH|].
      destruct rows as [|z rows]; simpl.
      * constructor. now apply Htotal.
      * destruct (leb x z); constructor; [now apply Htotal|].
        now inversion Hhead.
Qed.

Lemma orderBy_sorted (sortBy : SortField) (sortOrder : SortOrder) (rows : list Task) :
  StronglySorted (fun a b => Sql.rowLeb sortBy sortOrder a b = true)
    (Sql.orderBy sortBy sortOrder rows).
Proof.
  apply Sorted_StronglySorted.
  - intros a b c. apply rowLeb_trans.
  - unfold Sql.orderBy. induction rows as [|r rows IH]; simpl; [constructor|].
    apply insertRow_sorted; [apply rowLeb_total|exact IH].
Qed.

Lemma StronglySorted_app_l {A} (R : A -> A -> Prop) (l1 l2 : list A) :
  StronglySorted R (l1 ++ l2) -> StronglySorted R l1.
Proof.
  induction l1 as [|a l1 IH]; simpl; intros Hs; [constructor|].
  inversion Hs as [|? ? Hrest Hall]; subst. constructor; [now apply IH|].
  apply Forall_app in Hall. tauto.
Qed.

Lemma StronglySorted_app_r {A} (R : A -> A -> Prop) (l1 l2 : list A) :
  StronglySorted R (l1 ++ l2) -> StronglySorted R l2.
Proof.
  induction l1 as [|a l1 IH]; simpl; intros Hs; [assumption|].
  inversion Hs; subst. now apply IH.
Qed.

Lemma skipTake_sorted (R : Task -> Task -> Prop) (skip take : Z) (rows : list Task) :
  StronglySorted R rows -> StronglySorted R (Sql.skipTake skip take rows).
Proof.
  intros Hs. unfold Sql.skipTake.
  apply (StronglySorted_app_l R _ (skipn (Z.to_nat take) (skipn (Z.to_nat skip) rows))).
  rewrite firstn_skipn.
  apply (StronglySorted_app_r R (firstn (Z.to_nat skip) rows)).
  now rewrite firstn_skipn.
Qed.

Section OrderProperties.
Context `{Externals}.

(** The rows of a listing computed from the task table come in the
    requested order: of any two rows of the page, the earlier one is
    before or level with the later one in the order of the sort field
    and direction (ascending with [NULL] last, or the reverse).  With
    the default criteria, newest first, no row of the page was created
    before a row that follows it. *)
Theorem findAll_page_is_sorted (filterDto : FilterTaskDto) (caller : User) (s : State) :
  cache s !! TasksService.cacheKey (user_id caller) filterDto = None ->
  exists listing,
    fst (TasksService.findAll filterDto caller s) = Return (RPage listing)
    /\ StronglySorted
         (fun a b => Sql.rowLeb (f_sortBy filterDto) (f_sortOrder filterDto) a b = true)
         (data listing)
    /\ (f_sortBy filterDto = SortCreatedAt -> f_sortOrder filterDto = DESC ->
        forall earlier later rest before,
          data listing = (before ++ earlier :: rest)%list -> In later rest ->
          task_createdAt later <= task_createdAt earlier).
Proof.
  intros Hmiss. rewrite findAll_miss by assumption.
  eexists. split; [reflexivity|].
  unfold TasksService.getManyAndCount, TasksService.pageOf. cbn [data fst].
  assert (Hsorted : StronglySorted
            (fun a b => Sql.rowLeb (f_sortBy filterDto) (f_sortOrder filterDto) a b = true)
            (Sql.skipTake ((f_page filterDto - 1) * f_limit filterDto) (f_limit filterDto)
               (Sql.orderBy (f_sortBy filterDto) (f_sortOrder filterDto)
                  (List.filter (TasksService.whereClause filterDto caller) (tasks s)))))
    by apply skipTake_sorted, orderBy_sorted.
  split; [exact Hsorted|].
  intros Hfield Horder earlier later rest before Hsplit Hlater.
  rewrite Hsplit in Hsorted. apply StronglySorted_app_r in Hsorted.
  inversion Hsorted as [|? ? _ Hall]; subst.
  rewrite List.Forall_forall in Hall. specialize (Hall later Hlater).
  rewrite Hfield, Horder in Hall. simpl in Hall. now apply Z.leb_le.
Qed.

End OrderProperties.

Lemma findAll_page_is_sorted_witness :
  exists listing,
    fst (@TasksService.findAll Sample.externals Sample.defaults Sample.alice Sample.db)
    = Return (RPage listing)
    /\ data listing = [Sample.groceries; Sample.report]
    /\ task_createdAt Sample.report <= task_createdAt Sample.groceries.
Proof.
  destruct (@findAll_page_is_sorted Sample.externals Sample.defaults Sample.alice Sample.db)
    as (listing & Hrun & _ & Hnewest); [vm_compute; reflexivity|].
  assert (Hdata : data listing = [Sample.groceries; Sample.report]).
  { vm_compute in Hrun. now injection Hrun as <-. }
  exists listing. split; [exact Hrun|]. split; [exact Hdata|].
  apply (Hnewest eq_refl eq_refl Sample.groceries Sample.report [Sample.report] []).
  - exact Hdata.
  - simpl. auto.
Defined.

(** ** Paging through a listing *)

Lemma firstn_plus {A} (a b : nat) (l : list A) :
  firstn (a + b) l = (firstn a l ++ firstn b (skipn a l))%list.
Proof.
  revert l. induction a as [|a IH]; intros l; simpl; [reflexivity|].
  destruct l as [|x l]; simpl.
  - now rewrite firstn_nil.
  - now rewrite IH.
Qed.

Lemma pages_concat {A} (size count : nat) (l : list A) :
  List.concat (List.map (fun i => firstn size (skipn (i * size) l)) (seq 0 count))
  = firstn (count * size) l.
Proof.
  induction count as [|count IH]; [reflexivity|].
  rewrite seq_S, List.map_app, List.concat_app, IH. simpl.
  rewrite app_nil_r. now rewrite <- firstn_plus, Nat.add_comm.
Qed.

Lemma whereClause_withPage (filterDto : FilterTaskDto) (number : Z) (caller : User) (task : Task) :
  TasksService.whereClause (Reference.withPage filterDto number) caller task
  = TasksService.whereClause filterDto caller task.
Proof. reflexivity. Qed.

Lemma orderBy_Permutation (sortBy : SortField) (sortOrder : SortOrder) (rows : list Task) :
  Permutation (Sql.orderBy sortBy sortOrder rows) rows.
Proof.
  unfold Sql.orderBy. induction rows as [|r rows IH]; simpl; [constructor|].
  etransitivity; [|apply perm_skip, IH].
  generalize (fold_right (Sql.insertRow (Sql.rowLeb sortBy sortOrder)) [] rows).
  intros sorted. induction sorted as [|y sorted IHs]; simpl; [reflexivity|].
  destruct (Sql.rowLeb _ _ r y); [reflexivity|].
  etransitivity; [apply perm_skip, IHs|apply perm_swap].
Qed.

Lemma noTies_spec (sortBy : SortField) (sortOrder : SortOrder) (rows : list Task) :
  Reference.noTies sortBy sortOrder rows = true ->
  forall a b, In a rows -> In b rows ->
    Sql.rowLeb sortBy sortOrder a b = true -> Sql.rowLeb sortBy sortOrder b a = true ->
    a = b.
Proof.
  unfold Reference.noTies. intros Hno a b Ha Hb Hab Hba.
  rewrite forallb_forall in Hno. specialize (Hno a Ha).
  rewrite forallb_forall in Hno. specialize (Hno b Hb).
  rewrite Hab, Hba in Hno. simpl in Hno. now apply bool_decide_eq_true_1 in Hno.
Qed.

(** Two sorted arrangements of the same rows are the same list when no
    two distinct rows are level. *)
Lemma sorted_arrangement_unique (leb : Task -> Task -> bool) (l1 l2 : list Task) :
  (forall a b, In a l1 -> In b l1 -> leb a b = true -> leb b a = true -> a = b) ->
  Permutation l1 l2 ->
  StronglySorted (fun a b => leb a b = true) l1 ->
  StronglySorted (fun a b => leb a b = true) l2 ->
  l1 = l2.
Proof.
  revert l2. induction l1 as [|a t1 IH]; intros l2 Hanti Hperm Hs1 Hs2.
  - apply Permutation_nil in Hperm. now subst.
  - destruct l2 as [|b t2].
    + symmetry in Hperm. apply Permutation_nil in Hperm. discriminate.
    + inversion Hs1 as [|? ? Hs1' Hall1]; subst.
      inversion Hs2 as [|? ? Hs2' Hall2]; subst.
      rewrite List.Forall_forall in Hall1, Hall2.
      assert (Hb : In b (a :: t1))
        by (apply (Permutation_in b (Permutation_sym Hperm)); now left).
      assert (Ha : In a (b :: t2)) by (apply (Permutation_in a Hperm); now left).
      assert (Heq : a = b).
      { destruct Hb as [Hb|Hb]; [assumption|].
        destruct Ha as [Ha|Ha]; [now symmetry|].
        apply Hanti; [now left|now right|now apply Hall1|now apply Hall2]. }
      subst b. f_equal.
      apply IH; [|now apply Permutation_cons_inv with a|assumption|assumption].
      intros x y Hx Hy. apply Hanti; now right.
Qed.

(** Paging through a listing shows every matching row exactly once, in
    order, when no two matching rows are level on the sort column.  The
    database is free in the order of rows that are level, and it orders
    afresh for the query of every page; without such rows it has one
    arrangement to return: every sorted arrangement of the matching rows
    is the one list.  For a limit of at least 1 the pages 1, 2, ...,
    [totalPages], one after the other, are then that list: the matching
    rows of the table in the requested order, none left out and none
    repeated, whichever sorted arrangement each page was cut from. *)
Theorem pages_cover_the_matching_rows (filterDto : FilterTaskDto) (caller : User)
    (table : list Task) :
  1 <= f_limit filterDto ->
  let matching := List.filter (TasksService.whereClause filterDto caller) table in
  let pages := Z.to_nat (TasksService.ceilDiv (Z.of_nat (length matching))
                           (f_limit filterDto)) in
  let sorted := StronglySorted
                  (fun a b => Sql.rowLeb (f_sortBy filterDto) (f_sortOrder filterDto) a b
                              = true) in
  Reference.noTies (f_sortBy filterDto) (f_sortOrder filterDto) matching = true ->
  (forall arrangement,
     Permutation arrangement matching -> sorted arrangement ->
     arrangement = Sql.orderBy (f_sortBy filterDto) (f_sortOrder filterDto) matching)
  /\ (forall arrangementOf : nat -> list Task,
        (forall number,
           Permutation (arrangementOf number) matching /\ sorted (arrangementOf number)) ->
        List.concat
          (List.map (fun number =>
                       Sql.skipTake ((Z.of_nat number - 1) * f_limit filterDto)
                         (f_limit filterDto) (arrangementOf number))
                    (seq 1 pages))
        = Sql.orderBy (f_sortBy filterDto) (f_sortOrder filterDto) matching)
  /\ List.concat
       (List.map (fun number =>
                    fst (TasksService.getManyAndCount
                           (Reference.withPage filterDto (Z.of_nat number)) caller table))
                 (seq 1 pages))
     = Sql.orderBy (f_sortBy filterDto) (f_sortOrder filterDto) matching
  /\ Permutation
       (List.concat
          (List.map (fun number =>
                       fst (TasksService.getManyAndCount
                              (Reference.withPage filterDto (Z.of_nat number)) caller table))
                    (seq 1 pages)))
       matching.
Proof.
  intros Hlimit matching pages sorted Hno.
  assert (Hunique : forall arrangement,
            Permutation arrangement matching -> sorted arrangement ->
            arrangement = Sql.orderBy (f_sortBy filterDto) (f_sortOrder filterDto) matching).
  { intros arrangement Hperm Hsorted.
    apply (sorted_arrangement_unique
             (Sql.rowLeb (f_sortBy filterDto) (f_sortOrder filterDto))).
    - intros a b Ha Hb.
      apply (noTies_spec _ _ matching Hno); now apply (Permutation_in _ Hperm).
    - etransitivity; [exact Hperm|]. symmetry. apply orderBy_Permutation.
    - exact Hsorted.
    - apply orderBy_sorted. }
  assert (Hpages :
    List.concat
      (List.map (fun number =>
                   fst (TasksService.getManyAndCount
                          (Reference.withPage filterDto (Z.of_nat number)) caller table))
                (seq 1 pages))
    = Sql.orderBy (f_sortBy filterDto) (f_sortOrder filterDto) matching).
  { rewrite <- seq_shift, List.map_map.
    rewrite (List.map_ext _
               (fun i => firstn (Z.to_nat (f_limit filterDto))
                           (skipn (i * Z.to_nat (f_limit filterDto))
                              (Sql.orderBy (f_sortBy filterDto) (f_sortOrder filterDto)
                                 matching)))).
    - rewrite pages_concat. apply firstn_all2. rewrite orderBy_length.
      subst pages.
      pose proof (proj1 (ceilDiv_least (Z.of_nat (length matching)) (f_limit filterDto)
                           ltac:(lia) _) (Z.le_refl _)) as Hceil.
      assert (Hnonneg : 0 <= TasksService.ceilDiv (Z.of_nat (length matching))
                               (f_limit filterDto)).
      { destruct (Z.le_gt_cases 0 (TasksService.ceilDiv (Z.of_nat (length matching))
                                     (f_limit filterDto))) as [Hle|Hlt]; [assumption|].
        nia. }
      nia.
    - intros i. unfold TasksService.getManyAndCount, Sql.skipTake.
      cbn [fst Reference.withPage f_page f_limit f_sortBy f_sortOrder].
      replace (Z.to_nat ((Z.of_nat (S i) - 1) * f_limit filterDto))
        with (i * Z.to_nat (f_limit filterDto))%nat by nia.
      reflexivity. }
  split; [exact Hunique|]. split; [|split; [exact Hpages|]].
  - intros arrangementOf Hadmissible. rewrite <- Hpages.
    f_equal. apply List.map_ext. intros number.
    destruct (Hadmissible number) as [Hperm Hsorted].
    now rewrite (Hunique (arrangementOf number) Hperm Hsorted).
  - rewrite Hpages. apply orderBy_Permutation.
Qed.

Lemma pages_cover_the_matching_rows_witness :
  List.concat
    (List.map (fun number =>
                 fst (TasksService.getManyAndCount
                        (Reference.withPage Sample.thirdPage (Z.of_nat number))
                        Sample.alice (tasks Sample.busy)))
              [1; 2; 3]%nat)
  = Sql.orderBy SortCreatedAt DESC (tasks Sample.busy).
Proof.
  refine (proj1 (proj2 (proj2 (pages_cover_the_matching_rows Sample.thirdPage Sample.alice
                                 (tasks Sample.busy) _ _)))).
  - simpl. lia.
  - vm_compute. reflexivity.
Defined.

(** ** The cached task routes *)

(** [GET /tasks/:id] through the interceptor answers from the cache
    before the ownership check is reached: once a request to a URL has
    been answered with a task, every authenticated GET request to that
    URL is answered with the same task and leaves the state alone,
    whoever the caller is, even where [TasksService.findOne] would throw
    Forbidden for that caller. *)
Theorem cached_task_is_served_without_ownership_check
    (requestA requestB : Request) (caller : User) (idA idB : string) (s s1 : State)
    (response : Response) :
  method requestA = "GET" -> method requestB = "GET" -> url requestB = url requestA ->
  user requestB = Some caller ->
  TasksController.findOne requestA idA s = (Return response, s1) ->
  TasksController.findOne requestB idB s1 = (Return response, s1).
Proof.
  intros HgetA HgetB Hurl Hcaller.
  unfold TasksController.findOne, TasksController.guarded. rewrite Hcaller.
  destruct (user requestA) as [first|]; simpl; [|discriminate].
  intros Hfirst. apply intercept_hit; [assumption|]. rewrite Hurl.
  exact (intercept_stores requestA _ s s1 response HgetA Hfirst).
Qed.

Lemma cached_task_is_served_without_ownership_check_witness :
  let s1 := snd (TasksController.findOne (Sample.requestOf Sample.alice "/api/v1/tasks/t-1")
                   "t-1" Sample.db) in
  TasksController.findOne (Sample.requestOf Sample.bob "/api/v1/tasks/t-1") "t-1" s1
  = (Return (RTask Sample.report), s1)
  /\ TasksService.findOne "t-1" Sample.bob s1
     = (Throw (ForbiddenException "You can only access your own tasks"), s1).
Proof.
  intros s1. split; [|reflexivity].
  apply (cached_task_is_served_without_ownership_check
           (Sample.requestOf Sample.alice "/api/v1/tasks/t-1")
           (Sample.requestOf Sample.bob "/api/v1/tasks/t-1")
           Sample.bob "t-1" "t-1" Sample.db s1 (RTask Sample.report)
           eq_refl eq_refl eq_refl eq_refl).
  vm_compute. reflexivity.
Defined.

(** A refused request leaves nothing behind: when [GET /tasks/:id] ends
    in an exception (no user on the request, no such task, or a task the
    caller may not read), the state after it, the cache included, is the
    state before it; no error is stored for later callers. *)
Theorem refused_task_request_is_not_cached (request : Request) (id : string) (s : State)
    (e : Exception) :
  fst (TasksController.findOne request id s) = Throw e ->
  snd (TasksController.findOne request id s) = s.
Proof.
  unfold TasksController.findOne, TasksController.guarded.
  destruct (user request) as [caller|]; simpl; [|reflexivity].
  unfold HttpCacheInterceptor.intercept, CacheManager.get, CacheManager.set.
  unfold bind, gets, ret, modify.
  assert (Hread : snd (TasksService.findOne id caller s) = s).
  { unfold TasksService.findOne, bind, gets, ret, throw.
    destruct (List.find _ (tasks s)) as [task|]; [|reflexivity].
    now destruct (negb _ && negb _). }
  destruct (negb (String.eqb (method request) "GET")).
  - destruct (TasksService.findOne id caller s) as [[task|e'] s0]; simpl in *;
      [discriminate|]. now intros _.
  - destruct (cache s !! HttpCacheInterceptor.cacheKey (url request)); [discriminate|].
    destruct (TasksService.findOne id caller s) as [[task|e'] s0]; simpl in *;
      [discriminate|]. now intros _.
Qed.

Lemma refused_task_request_is_not_cached_witness :
  snd (TasksController.findOne (Sample.requestOf Sample.bob "/api/v1/tasks/t-1") "t-1"
         Sample.db) = Sample.db.
Proof.
  apply (refused_task_request_is_not_cached
           (Sample.requestOf Sample.bob "/api/v1/tasks/t-1") "t-1" Sample.db
           (ForbiddenException "You can only access your own tasks")).
  reflexivity.
Defined.

(** ** Task statistics *)

Lemma count_by_status (rows : list Task) :
  length rows
  = (length (List.filter (fun t => bool_decide (task_status t = TODO)) rows)
     + length (List.filter (fun t => bool_decide (task_status t = IN_PROGRESS)) rows)
     + length (List.filter (fun t => bool_decide (task_status t = DONE)) rows))%nat.
Proof.
  induction rows as [|r rows IH]; simpl; [reflexivity|].
  destruct (task_status r); simpl; lia.
Qed.

(** [getStatistics] counts the caller's tasks and nothing else: [total]
    is the number of stored tasks owned by the caller; for each status,
    [byStatus] holds under the status's string value the number of the
    caller's tasks with that status when there is at least one, and has
    no such key when there is none (a status without tasks is absent,
    not zero).  The state is not changed. *)
Theorem getStatistics_counts_own_tasks (caller : User) (s : State) :
  let own := List.filter (fun t => String.eqb (task_userId t) (user_id caller)) (tasks s) in
  exists statistics,
    TasksService.getStatistics caller s = (Return statistics, s)
    /\ TasksService.stat_total statistics = Z.of_nat (length own)
    /\ (forall status,
          let count :=
            length (List.filter (fun t => bool_decide (task_status t = status)) own) in
          TasksService.stat_byStatus statistics !! TasksService.statusValue status
          = if Nat.eqb count 0 then None else Some (Z.of_nat count)).
Proof.
  intros own. unfold TasksService.getStatistics, bind, gets, ret. fold own.
  eexists. split; [reflexivity|].
  unfold TasksService.groupByStatus. cbn [List.flat_map].
  pose proof (count_by_status own) as Hsum.
  destruct (Nat.eqb (length (List.filter (fun t => bool_decide (task_status t = TODO)) own)) 0)
    eqn:Htodo;
  destruct (Nat.eqb (length (List.filter (fun t => bool_decide (task_status t = IN_PROGRESS))
                               own)) 0) eqn:Hprogress;
  destruct (Nat.eqb (length (List.filter (fun t => bool_decide (task_status t = DONE)) own)) 0)
    eqn:Hdone;
  cbn [app List.fold_left TasksService.stat_total TasksService.stat_byStatus fst snd];
  rewrite ?Nat.eqb_eq in *;
  (split; [lia|]);
  intros []; cbn [TasksService.statusValue];
  rewrite ?Htodo, ?Hprogress, ?Hdone;
  repeat first [ rewrite lookup_insert_eq | rewrite lookup_insert_ne by discriminate ];
  rewrite ?lookup_empty; reflexivity.
Qed.

Lemma getStatistics_counts_own_tasks_witness :
  exists statistics,
    TasksService.getStatistics Sample.alice Sample.db = (Return statistics, Sample.db)
    /\ TasksService.stat_total statistics = 2
    /\ TasksService.stat_byStatus statistics !! "todo" = Some 1
    /\ TasksService.stat_byStatus statistics !! "in_progress" = None
    /\ TasksService.stat_byStatus statistics !! "done" = Some 1.
Proof.
  destruct (getStatistics_counts_own_tasks Sample.alice Sample.db)
    as (statistics & Hrun & Htotal & Hby).
  exists statistics. split; [exact Hrun|]. split; [exact Htotal|].
  split; [exact (Hby TODO)|]. split; [exact (Hby IN_PROGRESS)|exact (Hby DONE)].
Defined.

(** ** The admin-only user routes *)



(** ** Tokens *)

Section TokenProperties.
Context `{Externals}.

(** The token issued by a login resolves to the account that logged in:
    when [login] succeeds, in a user table with distinct ids, the state
    is unchanged, the token is signed for the id and the email of a
    stored account with the submitted email, the returned view is the
    view of that account, and [JwtStrategy.validate] on the signed
    payload returns that account. *)
Theorem login_token_resolves_to_the_account (loginDto : LoginDto) (s s' : State)
    (result : AuthService.AuthResult) :
  List.NoDup (List.map user_id (users s)) ->
  AuthService.login loginDto s = (Return result, s') ->
  s' = s
  /\ exists account,
       In account (users s)
       /\ user_email account = login_email loginDto
       /\ result = AuthService.authResult account
       /\ AuthService.access_token result
          = jwt_sign {| sub := user_id account; jwt_email := user_email account |}
       /\ JwtStrategy.validate {| sub := user_id account; jwt_email := user_email account |} s
          = (Return account, s).
Proof.
  intros Hunique. unfold AuthService.login, UsersService.findByEmail. run.
  destruct (List.find (fun u => String.eqb (user_email u) (login_email loginDto)) (users s))
    as [account|] eqn:Hfind; [|discriminate].
  destruct (user_isActive account) eqn:Hactive; simpl; [|discriminate].
  destruct (bcrypt_compare (login_password loginDto) (user_password account));
    simpl; [|discriminate].
  intros [= <- <-]. split; [reflexivity|].
  destruct (find_found _ _ _ Hfind) as [Hin Hmail]. apply String.eqb_eq in Hmail.
  exists account. repeat split; try assumption; try reflexivity.
  destruct (find_some_of (fun u => String.eqb (user_id u) (user_id account)) (users s)
              account Hin (String.eqb_refl _)) as (row & Hrow & _ & _).
  pose proof (find_by_unique_id (user_id account) (users s) row account Hunique Hrow Hin
                eq_refl) as Hsame.
  subst row.
  unfold JwtStrategy.validate, AuthService.validateUser, UsersService.findOne. run.
  now rewrite Hrow, Hactive.
Qed.

End TokenProperties.

Lemma login_token_resolves_to_the_account_witness :
  exists account,
    @AuthService.login Sample.externals
      {| login_email := "alice@example.com"; login_password := "Secret123" |} Sample.db
    = (Return (@AuthService.authResult Sample.externals account), Sample.db)
    /\ JwtStrategy.validate {| sub := user_id account; jwt_email := user_email account |}
         Sample.db
       = (Return account, Sample.db).
Proof.
  destruct (@login_token_resolves_to_the_account Sample.externals
              {| login_email := "alice@example.com"; login_password := "Secret123" |}
              Sample.db Sample.db (@AuthService.authResult Sample.externals Sample.alice))
    as (_ & account & _ & _ & Hresult & _ & Hvalidate).
  - simpl. repeat constructor; simpl; intuition discriminate.
  - reflexivity.
  - exists account. split; [|exact Hvalidate].
    rewrite <- Hresult. reflexivity.
Defined.

(** ** Writes and the next listing *)

Section ReadYourWrites.
Context `{Externals}.

Lemma create_success (createTaskDto : CreateTaskDto) (caller : User) (s s' : State)
    (task : Task) :
  TasksService.create createTaskDto caller s = (Return task, s') ->
  tasks s' = (tasks s ++ [task])%list
  /\ cache s' = ∅
  /\ task_userId task = user_id caller.
Proof.
  unfold TasksService.create, TasksService.insertTask, TasksService.invalidateTasksCache,
    CacheManager.reset.
  unfold bind, ret, modify.
  destruct (negb (existsb (fun u => String.eqb (user_id u) (user_id caller)) (users s)));
    [discriminate|].
  intros [= <- <-]. repeat split.
Qed.

(** A created task shows up in the creator's next listing; a cached
    listing cannot hide it.  After [create] has returned a task, a
    listing of the creator with criteria that the task meets (no search
    text, and the task's status and priority where the criteria name
    one) counts one matching row more than the table held before, and
    on page 1 with a limit that is not below that count the task is
    among the rows. *)
Theorem created_task_appears_in_next_listing (createTaskDto : CreateTaskDto)
    (filterDto : FilterTaskDto) (caller : User) (s s' : State) (task : Task) :
  TasksService.create createTaskDto caller s = (Return task, s') ->
  (forall status, f_status filterDto = Some status -> task_status task = status) ->
  (forall priority, f_priority filterDto = Some priority -> task_priority task = priority) ->
  f_search filterDto = None ->
  exists listing,
    fst (TasksService.findAll filterDto caller s') = Return (RPage listing)
    /\ total (meta listing)
       = Z.of_nat (length (List.filter (TasksService.whereClause filterDto caller) (tasks s)))
         + 1
    /\ (f_page filterDto = 1 -> total (meta listing) <= f_limit filterDto ->
        In task (data listing)).
Proof.
  intros Hcreate Hstatus Hpriority Hsearch.
  destruct (create_success _ _ _ _ _ Hcreate) as (Htasks & Hcache & Howner).
  assert (Hwhere : TasksService.whereClause filterDto caller task = true).
  { unfold TasksService.whereClause. rewrite Howner, String.eqb_refl, Hsearch.
    destruct (f_status filterDto) as [status|];
      [rewrite (bool_decide_eq_true_2 _ (Hstatus status eq_refl))|];
      (destruct (f_priority filterDto) as [priority|];
       [rewrite (bool_decide_eq_true_2 _ (Hpriority priority eq_refl))|]);
      reflexivity. }
  rewrite findAll_miss by (rewrite Hcache; apply lookup_empty).
  eexists. split; [reflexivity|].
  unfold TasksService.getManyAndCount, TasksService.pageOf. cbn [data meta total fst].
  rewrite Htasks, List.filter_app. cbn [List.filter]. rewrite Hwhere.
  rewrite List.length_app. cbn [length]. split; [lia|].
  intros Hpage Hfit. rewrite Hpage. change ((1 - 1) * f_limit filterDto) with 0.
  rewrite skipTake_first_page.
  - apply orderBy_In. apply in_or_app. right. now left.
  - rewrite orderBy_length, List.length_app. cbn [length]. lia.
Qed.

End ReadYourWrites.

Lemma created_task_appears_in_next_listing_witness :
  let cached := snd (@TasksService.findAll Sample.externals Sample.defaults Sample.alice
                       Sample.db) in
  let created := @TasksService.create Sample.externals
                   {| ct_title := "Book flights"; ct_description := None; ct_status := None;
                      ct_priority := None; ct_dueDate := None |} Sample.alice cached in
  exists task listing,
    fst created = Return task
    /\ fst (@TasksService.findAll Sample.externals Sample.defaults Sample.alice (snd created))
       = Return (RPage listing)
    /\ total (meta listing) = 3
    /\ In task (data listing).
Proof.
  intros cached created.
  destruct (fst created) as [task|e] eqn:Hrun; [|vm_compute in Hrun; discriminate].
  destruct (@created_task_appears_in_next_listing Sample.externals
              {| ct_title := "Book flights"; ct_description := None; ct_status := None;
                 ct_priority := None; ct_dueDate := None |}
              Sample.defaults Sample.alice cached (snd created) task)
    as (listing & Hlist & Htotal & Hshown).
  - rewrite <- Hrun. apply surjective_pairing.
  - discriminate.
  - discriminate.
  - reflexivity.
  - exists task, listing. split; [reflexivity|]. split; [exact Hlist|].
    assert (Hthree : total (meta listing) = 3) by (rewrite Htotal; vm_compute; reflexivity).
    split; [exact Hthree|]. apply Hshown; [reflexivity|]. rewrite Hthree. simpl. lia.
Defined.

(** ** Reading and changing user records *)

(** [GET /users/:id] has no ownership or role check: every authenticated
    caller, admin or not, gets the stored row of any user, as the
    repository holds it, and the state is not changed. *)
Theorem any_caller_reads_any_user (request : Request) (caller stored : User) (id : string)
    (s : State) :
  user request = Some caller ->
  List.find (fun u => String.eqb (user_id u) id) (users s) = Some stored ->
  UsersController.findOne request id s = (Return stored, s)
  /\ UsersController.getProfile request s = (Return caller, s).
Proof.
  intros Hcaller Hfind.
  unfold UsersController.findOne, UsersController.getProfile, UsersController.guarded.
  rewrite Hcaller. simpl. split; [|reflexivity].
  now apply users_findOne_found.
Qed.

Lemma any_caller_reads_any_user_witness :
  UsersController.findOne (Sample.requestOf Sample.alice "/api/v1/users/u-root") "u-root"
    Sample.db
  = (Return Sample.root, Sample.db).
Proof.
  apply (any_caller_reads_any_user (Sample.requestOf Sample.alice "/api/v1/users/u-root")
           Sample.alice Sample.root "u-root" Sample.db eq_refl eq_refl).
Defined.

(** The refusals of [update], in the order of the checks: an id that no
    row has gives NotFound, for an admin too; a stored id that is not
    the caller's gives a caller who is not an admin Forbidden ("You can
    only update your own profile"), with or without a role in the DTO;
    the caller's own id with a role in the DTO gives a caller who is not
    an admin Forbidden ("Only admins can change user roles").  None of
    them changes the state. *)
Theorem users_update_refusals (id : string) (updateUserDto : UpdateUserDto)
    (currentUser : User) (s : State) :
  ((forall u, In u (users s) -> user_id u <> id) ->
   UsersService.update id updateUserDto currentUser s
   = (Throw (NotFoundException ("User with ID " +:+ id +:+ " not found")), s))
  /\ ((exists u, In u (users s) /\ user_id u = id) ->
      user_role currentUser <> ADMIN ->
      (user_id currentUser <> id ->
       UsersService.update id updateUserDto currentUser s
       = (Throw (ForbiddenException "You can only update your own profile"), s))
      /\ (user_id currentUser = id -> uu_role updateUserDto <> None ->
          UsersService.update id updateUserDto currentUser s
          = (Throw (ForbiddenException "Only admins can change user roles"), s))).
Proof.
  split.
  - intros Hnone. unfold UsersService.update, bind.
    now rewrite users_findOne_missing.
  - intros (u & Hu & Hid) Hrole. apply roleIsAdmin_false in Hrole.
    destruct (find_some_of (fun u => String.eqb (user_id u) id) (users s) u Hu)
      as (stored & Hfind & _ & _); [rewrite Hid; apply String.eqb_refl|].
    unfold UsersService.update, bind.
    rewrite (users_findOne_found id s stored Hfind), Hrole. cbn [negb].
    split.
    + intros Hother. now rewrite (eqb_false_of_neq _ _ Hother).
    + intros -> Hdto. rewrite String.eqb_refl. cbn [negb andb].
      rewrite bool_decide_eq_true_2; [reflexivity|].
      destruct (uu_role updateUserDto) as [r|]; [now exists r|contradiction].
Qed.

Lemma users_update_refusals_witness :
  UsersService.update "u-404"
    {| uu_firstName := Some "Nobody"; uu_lastName := None; uu_role := None;
       uu_isActive := None |} Sample.root Sample.db
  = (Throw (NotFoundException "User with ID u-404 not found"), Sample.db)
  /\ UsersService.update "u-bob"
       {| uu_firstName := Some "Robert"; uu_lastName := None; uu_role := None;
          uu_isActive := None |} Sample.alice Sample.db
     = (Throw (ForbiddenException "You can only update your own profile"), Sample.db)
  /\ UsersService.update "u-alice"
       {| uu_firstName := None; uu_lastName := None; uu_role := Some ADMIN;
          uu_isActive := None |} Sample.alice Sample.db
     = (Throw (ForbiddenException "Only admins can change user roles"), Sample.db).
Proof.
  split; [|split].
  - apply (users_update_refusals "u-404" _ Sample.root Sample.db).
    simpl. intros u [<-|[<-|[<-|[<-|[]]]]]; discriminate.
  - refine (proj1 (proj2 (users_update_refusals "u-bob" _ Sample.alice Sample.db) _ _) _).
    + exists Sample.bob. simpl. auto.
    + discriminate.
    + discriminate.
  - refine (proj2 (proj2 (users_update_refusals "u-alice" _ Sample.alice Sample.db) _ _) _ _).
    + exists Sample.alice. simpl. auto.
    + discriminate.
    + reflexivity.
    + discriminate.
Defined.

(** ** The listing cache is kept per user *)

Lemma colon_separates (a b x y : string) :
  Reference.noColon a = true -> Reference.noColon b = true ->
  a +:+ ":" +:+ x = b +:+ ":" +:+ y -> a = b.
Proof.
  unfold Reference.noColon. revert b.
  induction a as [|c a IH]; intros [|d b]; simpl; intros Ha Hb Heq.
  - reflexivity.
  - injection Heq as <- _. simpl in Hb. discriminate.
  - injection Heq as -> _. simpl in Ha. discriminate.
  - injection Heq as -> Heq.
    apply andb_true_iff in Ha as [_ Ha]. apply andb_true_iff in Hb as [_ Hb].
    f_equal. now apply IH.
Qed.

Section ListingCacheProperties.
Context `{Externals}.

Lemma cacheKey_user (idA idB : string) (filterA filterB : FilterTaskDto) :
  Reference.noColon idA = true -> Reference.noColon idB = true ->
  TasksService.cacheKey idA filterA = TasksService.cacheKey idB filterB -> idA = idB.
Proof.
  intros HA HB. unfold TasksService.cacheKey.
  change ("tasks:" +:+ idA +:+ ":" +:+ JSON_stringify filterA)
    with ("tasks:" +:+ (idA +:+ ":" +:+ JSON_stringify filterA)).
  change ("tasks:" +:+ idB +:+ ":" +:+ JSON_stringify filterB)
    with ("tasks:" +:+ (idB +:+ ":" +:+ JSON_stringify filterB)).
  simpl. intros [= Heq].
  change (idA +:+ ":" +:+ JSON_stringify filterA = idB +:+ ":" +:+ JSON_stringify filterB)
    in Heq.
  exact (colon_separates idA idB _ _ HA HB Heq).
Qed.

(** The service's own listing cache does not mix users: when the ids of
    two users hold no colon (generated keys do not) and differ, a
    listing of the first leaves every cache entry of the second as it
    was, so that a listing of the second returns afterwards what it
    would have returned before. *)
Theorem listing_cache_is_per_user (userA userB : User) (filterA filterB : FilterTaskDto)
    (s : State) :
  Reference.noColon (user_id userA) = true ->
  Reference.noColon (user_id userB) = true ->
  user_id userA <> user_id userB ->
  cache (snd (TasksService.findAll filterA userA s))
    !! TasksService.cacheKey (user_id userB) filterB
  = cache s !! TasksService.cacheKey (user_id userB) filterB
  /\ fst (TasksService.findAll filterB userB (snd (TasksService.findAll filterA userA s)))
     = fst (TasksService.findAll filterB userB s).
Proof.
  intros HA HB Hne.
  assert (Hkeys : TasksService.cacheKey (user_id userA) filterA
                  <> TasksService.cacheKey (user_id userB) filterB).
  { intros Heq. apply Hne. now apply (cacheKey_user _ _ filterA filterB). }
  destruct (cache s !! TasksService.cacheKey (user_id userA) filterA) as [cached|] eqn:HlookA.
  - rewrite (findAll_hit filterA userA s cached HlookA). split; reflexivity.
  - rewrite (findAll_miss filterA userA s HlookA). cbn [snd cache].
    assert (Hsame : forall v,
              <[TasksService.cacheKey (user_id userA) filterA := v]> (cache s)
              !! TasksService.cacheKey (user_id userB) filterB
              = cache s !! TasksService.cacheKey (user_id userB) filterB)
      by (intros v; now apply lookup_insert_ne).
    split; [apply Hsame|].
    destruct (cache s !! TasksService.cacheKey (user_id userB) filterB) as [cachedB|]
      eqn:HlookB.
    + rewrite (findAll_hit filterB userB s cachedB HlookB).
      rewrite (findAll_hit filterB userB _ cachedB); [reflexivity|].
      cbn [cache]. now rewrite Hsame.
    + rewrite (findAll_miss filterB userB s HlookB).
      rewrite findAll_miss; [reflexivity|].
      cbn [cache]. now rewrite Hsame.
Qed.

End ListingCacheProperties.

Lemma listing_cache_is_per_user_witness :
  fst (@TasksService.findAll Sample.externals Sample.defaults Sample.bob
         (snd (@TasksService.findAll Sample.externals Sample.defaults Sample.alice Sample.db)))
  = fst (@TasksService.findAll Sample.externals Sample.defaults Sample.bob Sample.db).
Proof.
  apply (@listing_cache_is_per_user Sample.externals Sample.alice Sample.bob Sample.defaults
           Sample.defaults Sample.db); [reflexivity|reflexivity|discriminate].
Defined.
